(** * ArduinoWatchdog: the watchdog cycle controller of Watchdog.cpp

    A shallow embedding of [Watchdog.cpp] (class [Watchdog] and the
    [ISR(WDT_vect)] handler) for the ATmega328P, the AVR target the
    source is written for.  Machine integers are [Z] with their
    wrap-around written out; the device is a record of the registers and
    globals the source touches; every source function is a state
    transformer of the same name. *)

From Stdlib Require Import ZArith List Bool Lia.
Import ListNotations.
Local Open Scope Z_scope.

(** ** Machine integers *)

(** [uint8_t], [int] (16 bits on AVR) and [unsigned long long]. *)
Definition to_u8 (x : Z) : Z := x mod 2 ^ 8.
Definition to_u64 (x : Z) : Z := x mod 2 ^ 64.

(** Conversion to a signed integer of [w] bits (two's complement, as
    avr-gcc does it). *)
Definition to_signed (w : Z) (x : Z) : Z :=
  (x + 2 ^ (w - 1)) mod 2 ^ w - 2 ^ (w - 1).

Definition INT_BITS : Z := 16.
Definition to_int (x : Z) : Z := to_signed INT_BITS x.

(** [_BV(bit)] of avr-libc: [1 << bit]. *)
Definition _BV (bit : Z) : Z := Z.shiftl 1 bit.

(** ** Constants of avr-libc for the ATmega328P

    [avr/wdt.h]: the time-out codes; [avr/io.h]: the bit positions in
    WDTCSR, MCUSR and SMCR. *)
Definition WDTO_1S : Z := 6.
Definition WDTO_2S : Z := 7.
Definition WDTO_4S : Z := 8.
Definition WDTO_8S : Z := 9.

Definition WDP0 : Z := 0.
Definition WDP1 : Z := 1.
Definition WDP2 : Z := 2.
Definition WDE  : Z := 3.
Definition WDCE : Z := 4.
Definition WDP3 : Z := 5.
Definition WDIE : Z := 6.

Definition WDRF : Z := 3.

Definition SE : Z := 0.
Definition SLEEP_MODE_PWR_DOWN : Z := 4.
Definition SLEEP_MODE_MASK : Z := 14.
Definition PRR_ALL : Z := 239.

(** ** Time-out steps

    The table in [Configure] (lines 66-78 of Watchdog.cpp): the
    prescaler code [c] lets the timer run for [2K * 2^c] oscillator
    cycles, and 128K cycles are one second. *)
Definition wdt_cycles (wdto : Z) : Z := 2048 * 2 ^ wdto.
Definition stepSeconds (wdto : Z) : Z := wdt_cycles wdto / 131072.

(** The codes [DeterminePeriod] can select. *)
Definition supported_steps : list Z := [WDTO_1S; WDTO_2S; WDTO_4S; WDTO_8S].

(** ** The device *)

Inductive reg := RegMCUSR | RegWDTCSR.

(** What the foreground and the handler do to the hardware, for the
    log: a register write carries the value written and the global
    interrupt flag at the time of the write. *)
Inductive event :=
| EvWrite (r : reg) (v : Z) (irq_enabled : bool)
| EvWdr
| EvSleepCpu.

Record state := mkState {
  _wdto : Z;              (* static uint8_t Watchdog::_wdto *)
  _sleepOrWaitCount : Z;  (* volatile unsigned long long *)
  _waitTotal : Z;         (* volatile unsigned long long *)
  WDTCSR : Z;             (* watchdog timer control register *)
  MCUSR : Z;              (* MCU status register *)
  SMCR : Z;               (* sleep mode control register *)
  PRR : Z;                (* power reduction register *)
  SREG_I : bool;          (* global interrupt enable flag *)
  wdt_timer : Z;          (* the watchdog's own counter, in oscillator cycles *)
  trace : list event      (* log, most recent event first *)
}.

Definition set_wdto (v : Z) (s : state) : state :=
  mkState v (_sleepOrWaitCount s) (_waitTotal s) (WDTCSR s) (MCUSR s)
          (SMCR s) (PRR s) (SREG_I s) (wdt_timer s) (trace s).
Definition set_sleepOrWaitCount (v : Z) (s : state) : state :=
  mkState (_wdto s) v (_waitTotal s) (WDTCSR s) (MCUSR s)
          (SMCR s) (PRR s) (SREG_I s) (wdt_timer s) (trace s).
Definition set_waitTotal (v : Z) (s : state) : state :=
  mkState (_wdto s) (_sleepOrWaitCount s) v (WDTCSR s) (MCUSR s)
          (SMCR s) (PRR s) (SREG_I s) (wdt_timer s) (trace s).
Definition set_SMCR (v : Z) (s : state) : state :=
  mkState (_wdto s) (_sleepOrWaitCount s) (_waitTotal s) (WDTCSR s) (MCUSR s)
          v (PRR s) (SREG_I s) (wdt_timer s) (trace s).
Definition set_PRR (v : Z) (s : state) : state :=
  mkState (_wdto s) (_sleepOrWaitCount s) (_waitTotal s) (WDTCSR s) (MCUSR s)
          (SMCR s) v (SREG_I s) (wdt_timer s) (trace s).
Definition set_SREG_I (b : bool) (s : state) : state :=
  mkState (_wdto s) (_sleepOrWaitCount s) (_waitTotal s) (WDTCSR s) (MCUSR s)
          (SMCR s) (PRR s) b (wdt_timer s) (trace s).

(** A store to an 8-bit I/O register: the register holds the low eight
    bits of the value, and the write is logged. *)
Definition write_MCUSR (v : Z) (s : state) : state :=
  mkState (_wdto s) (_sleepOrWaitCount s) (_waitTotal s) (WDTCSR s) (to_u8 v)
          (SMCR s) (PRR s) (SREG_I s) (wdt_timer s)
          (EvWrite RegMCUSR (to_u8 v) (SREG_I s) :: trace s).
Definition write_WDTCSR (v : Z) (s : state) : state :=
  mkState (_wdto s) (_sleepOrWaitCount s) (_waitTotal s) (to_u8 v) (MCUSR s)
          (SMCR s) (PRR s) (SREG_I s) (wdt_timer s)
          (EvWrite RegWDTCSR (to_u8 v) (SREG_I s) :: trace s).

(** Arduino's [noInterrupts()] and [interrupts()]: [cli] and [sei]. *)
Definition noInterrupts (s : state) : state := set_SREG_I false s.
Definition interrupts (s : state) : state := set_SREG_I true s.

(** [wdt_reset()]: the [wdr] instruction restarts the watchdog timer. *)
Definition wdt_reset (s : state) : state :=
  mkState (_wdto s) (_sleepOrWaitCount s) (_waitTotal s) (WDTCSR s) (MCUSR s)
          (SMCR s) (PRR s) (SREG_I s) 0 (EvWdr :: trace s).

(** [wdt_disable()]: the watchdog is switched off. *)
Definition wdt_disable (s : state) : state :=
  mkState (_wdto s) (_sleepOrWaitCount s) (_waitTotal s) 0 (MCUSR s)
          (SMCR s) (PRR s) (SREG_I s) (wdt_timer s) (trace s).

(** [avr/power.h] and [avr/sleep.h]. *)
Definition power_all_disable (s : state) : state :=
  set_PRR (Z.lor (PRR s) PRR_ALL) s.
Definition power_all_enable (s : state) : state :=
  set_PRR (Z.land (PRR s) (to_u8 (Z.lnot PRR_ALL))) s.
Definition set_sleep_mode (m : Z) (s : state) : state :=
  set_SMCR (Z.lor (Z.land (SMCR s) (to_u8 (Z.lnot SLEEP_MODE_MASK))) m) s.
Definition sleep_enable (s : state) : state :=
  set_SMCR (Z.lor (SMCR s) (_BV SE)) s.
Definition sleep_disable (s : state) : state :=
  set_SMCR (Z.land (SMCR s) (to_u8 (Z.lnot (_BV SE)))) s.

(** ** Operating mode, as the hardware reads it off WDTCSR *)

Inductive op_mode := Stopped | InterruptOnly | ResetMode | InterruptMode.

Definition mode_of (wdtcsr : Z) : op_mode :=
  match Z.testbit wdtcsr WDE, Z.testbit wdtcsr WDIE with
  | true, true => InterruptMode
  | true, false => ResetMode
  | false, true => InterruptOnly
  | false, false => Stopped
  end.

Definition mode (s : state) : op_mode := mode_of (WDTCSR s).

(** ** Period Quantizer: [Watchdog::DeterminePeriod] *)

Definition DeterminePeriod (periodInSeconds : Z) : Z :=
  let wdto := WDTO_1S in
  if (periodInSeconds >=? 8) || (periodInSeconds =? 0) then WDTO_8S
  else if periodInSeconds >=? 4 then WDTO_4S
  else if periodInSeconds >=? 2 then WDTO_2S
  else wdto.

(** ** Hardware Programmer: [Watchdog::Configure] *)

Definition wdps_of (wdto : Z) (sleepOrWait : bool) : Z :=
  to_u8
    (Z.lor (Z.lor (Z.lor (Z.lor (Z.lor
       (if Z.land wdto 8 =? 0 then 0 else _BV WDP3)
       (if Z.land wdto 4 =? 0 then 0 else _BV WDP2))
       (if Z.land wdto 2 =? 0 then 0 else _BV WDP1))
       (if Z.land wdto 1 =? 0 then 0 else _BV WDP0))
       (_BV WDE))
       (if sleepOrWait then _BV WDIE else 0)).

Definition Configure (sleepOrWait : bool) (s : state) : state :=
  let wdps := wdps_of (_wdto s) sleepOrWait in
  let s := noInterrupts s in
  let s := write_MCUSR (Z.land (MCUSR s) (Z.lnot (_BV WDRF))) s in
  let s := write_WDTCSR (Z.lor (_BV WDCE) (_BV WDE)) s in
  let s := write_WDTCSR wdps s in
  let s := interrupts s in
  wdt_reset s.

(** The constructor [Watchdog::Watchdog]. *)
Definition Watchdog (periodInSeconds : Z) (s : state) : state :=
  let s := wdt_disable s in
  set_wdto (DeterminePeriod periodInSeconds) s.

(** ** Interrupt Handler: [ISR(WDT_vect)]

    The body is lines 191-206.  The hardware clears the global interrupt
    flag when it enters the vector and [reti] sets it again. *)
Definition ISR_body (s : state) : state :=
  let s := set_sleepOrWaitCount (to_u64 (_sleepOrWaitCount s + 1)) s in
  if _sleepOrWaitCount s <? _waitTotal s then
    Configure true s
  else if (_sleepOrWaitCount s =? _waitTotal s) && negb (_waitTotal s =? 0) then
    Configure false s
  else s.

Definition ISR_WDT_vect (s : state) : state :=
  set_SREG_I true (ISR_body (set_SREG_I false s)).

(** ** Cycle Sequencer: [Sleep], [Wait] and [Reset] *)

(** The cascade at the head of [Sleep] (lines 97-107); [ncycles] is an
    [unsigned long long] there. *)
Definition Sleep_ncycles (wdto periodInSeconds : Z) : Z :=
  let ncycles := periodInSeconds in
  if wdto =? WDTO_8S then periodInSeconds / 8
  else if wdto =? WDTO_4S then periodInSeconds / 4
  else if wdto =? WDTO_2S then periodInSeconds / 2
  else ncycles.

(** The cascade at the head of [Wait] (lines 149-159); [ncycles] is an
    [int] there, so every value assigned to it is converted. *)
Definition Wait_ncycles (wdto periodInSeconds : Z) : Z :=
  let ncycles := to_int periodInSeconds in
  if wdto =? WDTO_8S then to_int (periodInSeconds / 8)
  else if wdto =? WDTO_4S then to_int (periodInSeconds / 4)
  else if wdto =? WDTO_2S then to_int (periodInSeconds / 2)
  else ncycles.

(** What the watchdog leaves in WDTCSR when its time-out raises the
    interrupt while WDE is set: the hardware clears WDIE, so the next
    time-out resets the device unless the software sets WDIE again. *)
Definition wdie_cleared (s : state) : state :=
  mkState (_wdto s) (_sleepOrWaitCount s) (_waitTotal s)
          (Z.land (WDTCSR s) (to_u8 (Z.lnot (_BV WDIE)))) (MCUSR s)
          (SMCR s) (PRR s) (SREG_I s) (wdt_timer s) (trace s).

(** A time-out of the watchdog timer that raises the interrupt: with WDE
    set the hardware clears WDIE as it does so; with WDE clear
    (interrupt-only mode) it leaves WDTCSR as it is. *)
Definition wdt_timeout (s : state) : state :=
  if Z.testbit (WDTCSR s) WDE then wdie_cleared s else s.

(** One expiry: the time-out, then the handler. *)
Definition WDT_expiry (s : state) : state := ISR_WDT_vect (wdt_timeout s).

(** The CPU halted in [sleep_cpu()]: the watchdog expires [k] times
    before the foreground resumes ([k = 1] for a wake by the watchdog,
    [k = 0] for a wake by another interrupt source). *)
Fixpoint fire (k : nat) (s : state) : state :=
  match k with
  | O => s
  | S k => fire k (WDT_expiry s)
  end.

Definition log (e : event) (s : state) : state :=
  mkState (_wdto s) (_sleepOrWaitCount s) (_waitTotal s) (WDTCSR s) (MCUSR s)
          (SMCR s) (PRR s) (SREG_I s) (wdt_timer s) (e :: trace s).

Definition sleep_cpu (k : nat) (s : state) : state := fire k (log EvSleepCpu s).

(** [sleep_mode()] of avr/sleep.h: enable, sleep, disable. *)
Definition sleep_mode (k : nat) (s : state) : state :=
  sleep_disable (sleep_cpu k (sleep_enable s)).

(** Lines 109-122: everything between the cascade and the loop. *)
Definition Sleep_prologue (s : state) : state :=
  let s := Configure true s in
  let s := power_all_disable s in
  let s := set_sleep_mode SLEEP_MODE_PWR_DOWN s in
  set_sleepOrWaitCount 0 s.

(** One turn of the loop body (lines 128-137). *)
Definition Sleep_body (k : nat) (s : state) : state :=
  let s := sleep_mode k s in
  let s := sleep_disable s in
  Configure true s.

(** The loop of lines 124-138.  [wakes] lists, for each time the CPU is
    put to sleep, how often the handler fires before the foreground
    resumes; when the list is used up the CPU stays asleep and the loop
    does not return. *)
Fixpoint Sleep_loop (wakes : list nat) (ncycles : Z) (s : state) : option state :=
  if _sleepOrWaitCount s <? ncycles then
    match wakes with
    | [] => None
    | k :: wakes => Sleep_loop wakes ncycles (Sleep_body k s)
    end
  else Some s.

(** Lines 140-143. *)
Definition Sleep_epilogue (s : state) : state :=
  let s := power_all_enable s in
  Configure false s.

Definition Sleep (wakes : list nat) (periodInSeconds : Z) (s : state) : option state :=
  let ncycles := Sleep_ncycles (_wdto s) periodInSeconds in
  let s := Sleep_prologue s in
  match Sleep_loop wakes ncycles s with
  | Some s => Some (Sleep_epilogue s)
  | None => None
  end.

Definition Wait (periodInSeconds : Z) (s : state) : state :=
  let ncycles := Wait_ncycles (_wdto s) periodInSeconds in
  let s := set_sleepOrWaitCount 0 s in
  let s := set_waitTotal (to_u64 ncycles) s in
  Configure true s.

Definition Reset (periodInSeconds : Z) (s : state) : state :=
  let s :=
    if negb (Z.land (WDTCSR s) (_BV WDE) =? 0) || negb (Z.land (MCUSR s) (_BV WDRF) =? 0)
    then wdt_reset s else s in
  let s :=
    if negb (periodInSeconds =? 0) then
      let s := set_wdto (DeterminePeriod periodInSeconds) s in
      let s := set_waitTotal 0 s in
      Configure false s
    else s in
  if negb (_waitTotal s =? 0) then
    let s := set_waitTotal 0 s in
    Configure false s
  else s.

(** ** Program points of a [Sleep] call

    The states a [Sleep] call passes through, one per foreground or
    handler action: the loop test, the CPU halted, the foreground
    resumed after the handler, and the return. *)
Inductive point := LoopHead | Asleep | Woken | Returned.

Fixpoint Sleep_loop_points (wakes : list nat) (ncycles : Z) (s : state)
  : list (point * state) :=
  (LoopHead, s) ::
  if _sleepOrWaitCount s <? ncycles then
    (Asleep, log EvSleepCpu (sleep_enable s)) ::
    match wakes with
    | [] => []
    | k :: wakes =>
        (Woken, sleep_mode k s) :: Sleep_loop_points wakes ncycles (Sleep_body k s)
    end
  else [(Returned, Sleep_epilogue s)].

Definition Sleep_points (wakes : list nat) (periodInSeconds : Z) (s : state)
  : list (point * state) :=
  Sleep_loop_points wakes (Sleep_ncycles (_wdto s) periodInSeconds)
                    (Sleep_prologue s).

(** The number of times the CPU was put to sleep, read off the log. *)
Fixpoint naps (t : list event) : nat :=
  match t with
  | [] => O
  | EvSleepCpu :: t => S (naps t)
  | _ :: t => naps t
  end.

(** ** Program start

    The globals at their initialisers (lines 8-10), the watchdog off,
    interrupts enabled. *)
Definition boot : state :=
  mkState WDTO_8S 0 1 0 0 0 0 true 0 [].

(** The state in which the handler calls [Configure]: the hardware has
    cleared the global interrupt flag on entry to the vector. *)
Definition in_handler (s : state) : state :=
  set_sleepOrWaitCount (to_u64 (_sleepOrWaitCount s + 1)) (set_SREG_I false s).

(** What the sequencer keeps of the mode at each point of a [Sleep] call. *)
Definition point_mode_ok (c : point * state) : Prop :=
  match fst c with
  | LoopHead | Asleep => mode (snd c) = InterruptMode
  | Returned => mode (snd c) = ResetMode
  | Woken => True
  end.

(** The time-out code the hardware reads off WDTCSR: the prescaler bits
    WDP3..WDP0, in the order of the table in [Configure]. *)
Definition prescaler_of (wdtcsr : Z) : Z :=
  (if Z.testbit wdtcsr WDP3 then 8 else 0)
  + (if Z.testbit wdtcsr WDP2 then 4 else 0)
  + (if Z.testbit wdtcsr WDP1 then 2 else 0)
  + (if Z.testbit wdtcsr WDP0 then 1 else 0).

(** The calls and events other than [Wait] and [Reset]: the
    constructor, [Configure], a [Sleep] with its wakes, and an expiry
    of the watchdog outside a [Sleep]. *)
Inductive call :=
| CallWatchdog (periodInSeconds : Z)
| CallConfigure (sleepOrWait : bool)
| CallSleep (wakes : list nat) (periodInSeconds : Z)
| Expiry.

Definition do_call (c : call) (s : state) : option state :=
  match c with
  | CallWatchdog p => Some (Watchdog p s)
  | CallConfigure b => Some (Configure b s)
  | CallSleep wakes d => Sleep wakes d s
  | Expiry => Some (WDT_expiry s)
  end.

Fixpoint do_calls (cs : list call) (s : state) : option state :=
  match cs with
  | [] => Some s
  | c :: cs =>
      match do_call c s with
      | Some s' => do_calls cs s'
      | None => None
      end
  end.

(** The calls during which the watchdog cannot have expired. *)
Definition no_expiry (c : call) : bool :=
  match c with
  | CallWatchdog _ | CallConfigure _ => true
  | CallSleep _ _ | Expiry => false
  end.

(** * Properties *)

(** ** The scenarios of the specification, run from program start *)

Example boot_Sleep16 :
  option_map (fun s => (_sleepOrWaitCount s, mode s, naps (trace s)))
    (Sleep [1%nat; 1%nat] 16 (Watchdog 0 boot)) = Some (2, ResetMode, 2%nat).
Proof. vm_compute. reflexivity. Qed.

Example boot_Wait20 :
  let s := Wait 20 (Watchdog 0 boot) in
  (_waitTotal s, mode s, mode (fire 1 s), mode (fire 2 s), _waitTotal (fire 2 s))
  = (2, InterruptMode, InterruptMode, ResetMode, 2).
Proof. vm_compute. reflexivity. Qed.

(** ** Machine integers and time-out codes *)

Lemma stepSeconds_1S : stepSeconds WDTO_1S = 1.
Proof. reflexivity. Qed.
Lemma stepSeconds_2S : stepSeconds WDTO_2S = 2.
Proof. reflexivity. Qed.
Lemma stepSeconds_4S : stepSeconds WDTO_4S = 4.
Proof. reflexivity. Qed.
Lemma stepSeconds_8S : stepSeconds WDTO_8S = 8.
Proof. reflexivity. Qed.

Lemma supported_cases (w : Z) :
  In w supported_steps ->
  w = WDTO_1S \/ w = WDTO_2S \/ w = WDTO_4S \/ w = WDTO_8S.
Proof.
  unfold supported_steps. simpl. intros H.
  repeat (destruct H as [H | H]; [subst; auto | ]). contradiction.
Qed.

(** Case split of a goal over the four supported steps. *)
Ltac each_step H :=
  apply supported_cases in H; destruct H as [-> | [-> | [-> | ->]]].

Lemma to_u64_small (x : Z) : 0 <= x < 2 ^ 64 -> to_u64 x = x.
Proof. intros H. unfold to_u64. now apply Z.mod_small. Qed.

Lemma to_int_small (x : Z) : - 2 ^ 15 <= x < 2 ^ 15 -> to_int x = x.
Proof.
  intros H. unfold to_int, to_signed, INT_BITS.
  change (2 ^ (16 - 1)) with (2 ^ 15). rewrite Z.mod_small; lia.
Qed.

(** ** Period Quantizer *)

(** The four branches of the cascade, by the range of the request. *)
Lemma DeterminePeriod_cases (s : Z) :
  (s = 0 \/ 8 <= s) /\ DeterminePeriod s = WDTO_8S
  \/ 4 <= s < 8 /\ DeterminePeriod s = WDTO_4S
  \/ 2 <= s < 4 /\ DeterminePeriod s = WDTO_2S
  \/ (s < 0 \/ s = 1) /\ DeterminePeriod s = WDTO_1S.
Proof.
  unfold DeterminePeriod.
  destruct (Z.geb_spec s 8); simpl; [left; split; [lia | reflexivity] | ].
  destruct (Z.eqb_spec s 0); simpl; [left; split; [lia | reflexivity] | ].
  destruct (Z.geb_spec s 4); [right; left; split; [lia | reflexivity] | ].
  destruct (Z.geb_spec s 2); [right; right; left; split; [lia | reflexivity] | ].
  right; right; right; split; [lia | reflexivity].
Qed.

Lemma DeterminePeriod_supported (s : Z) : In (DeterminePeriod s) supported_steps.
Proof.
  destruct (DeterminePeriod_cases s) as [[_ E] | [[_ E] | [[_ E] | [_ E]]]];
    rewrite E; unfold supported_steps; simpl; auto.
Qed.

(** C1.  For a request [s >= 0], [DeterminePeriod s] is a supported step;
    a request of 0 gives the 8-second step; a request of at least one
    second gives the largest supported step that does not exceed it; a
    non-zero request below two seconds falls through to the 1-second
    step; and [DeterminePeriod] of 3, 0 and 9 is the 2-second, the
    8-second and the 8-second step. *)
Theorem DeterminePeriod_largest_step (s : Z) :
  0 <= s ->
  In (DeterminePeriod s) supported_steps
  /\ (s = 0 -> DeterminePeriod s = WDTO_8S)
  /\ (1 <= s ->
      stepSeconds (DeterminePeriod s) <= s
      /\ forall t, In t supported_steps -> stepSeconds t <= s ->
                   stepSeconds t <= stepSeconds (DeterminePeriod s))
  /\ (s <> 0 -> s < 2 -> DeterminePeriod s = WDTO_1S)
  /\ DeterminePeriod 3 = WDTO_2S
  /\ DeterminePeriod 0 = WDTO_8S
  /\ DeterminePeriod 9 = WDTO_8S.
Proof.
  intros Hs. split; [apply DeterminePeriod_supported | ].
  split; [intros ->; reflexivity | ].
  split.
  - intros H1.
    destruct (DeterminePeriod_cases s) as [[R E] | [[R E] | [[R E] | [R E]]]];
      rewrite E; (split; [vm_compute stepSeconds; lia | ]);
      intros t Ht Hle; each_step Ht;
      vm_compute stepSeconds in *; lia.
  - split; [ | repeat split; reflexivity].
    intros H0 H2.
    destruct (DeterminePeriod_cases s) as [[R E] | [[R E] | [[R E] | [R E]]]];
      solve [exact E | lia].
Qed.

Lemma DeterminePeriod_largest_step_witness :
  0 <= 5
  /\ stepSeconds (DeterminePeriod 5) <= 5
  /\ (stepSeconds WDTO_4S <= 5 -> stepSeconds WDTO_4S <= stepSeconds (DeterminePeriod 5))
  /\ DeterminePeriod 1 = WDTO_1S.
Proof.
  split; [lia | ].
  destruct (DeterminePeriod_largest_step 5 ltac:(lia)) as (_ & _ & H & _).
  destruct (H ltac:(lia)) as [Hle Hmax].
  split; [exact Hle | ].
  split.
  - intros Hs. apply Hmax; [unfold supported_steps; simpl; auto | exact Hs].
  - destruct (DeterminePeriod_largest_step 1 ltac:(lia)) as (_ & _ & _ & H1 & _).
    apply H1; lia.
Defined.

(** C7, as stated: monotonicity over all non-negative requests fails
    between 0 and 1. *)
Lemma DeterminePeriod_not_monotonic :
  0 <= 0 <= 1
  /\ DeterminePeriod 0 = WDTO_8S /\ DeterminePeriod 1 = WDTO_1S
  /\ ~ (stepSeconds (DeterminePeriod 0) <= stepSeconds (DeterminePeriod 1))
  /\ ~ (forall s1 s2, 0 <= s1 -> s1 <= s2 ->
          stepSeconds (DeterminePeriod s1) <= stepSeconds (DeterminePeriod s2)).
Proof.
  split; [lia | ]. split; [reflexivity | ]. split; [reflexivity | ].
  split.
  - vm_compute. intros H. apply H. reflexivity.
  - intros H. specialize (H 0 1 ltac:(lia) ltac:(lia)).
    vm_compute in H. apply H. reflexivity.
Qed.

(** C7, amended.  On requests of at least one second [DeterminePeriod]
    is monotonic non-decreasing, in the time-out code and in the seconds
    it stands for. *)
Theorem DeterminePeriod_monotonic_from_1 (s1 s2 : Z) :
  1 <= s1 -> s1 <= s2 ->
  DeterminePeriod s1 <= DeterminePeriod s2
  /\ stepSeconds (DeterminePeriod s1) <= stepSeconds (DeterminePeriod s2).
Proof.
  intros H1 H12.
  destruct (DeterminePeriod_cases s1) as [[R1 E1] | [[R1 E1] | [[R1 E1] | [R1 E1]]]];
    destruct (DeterminePeriod_cases s2) as [[R2 E2] | [[R2 E2] | [[R2 E2] | [R2 E2]]]];
    rewrite E1, E2; try lia; vm_compute; split; discriminate.
Qed.

Lemma DeterminePeriod_monotonic_from_1_witness :
  1 <= 3 /\ 3 <= 9
  /\ DeterminePeriod 3 <= DeterminePeriod 9
  /\ stepSeconds (DeterminePeriod 3) <= stepSeconds (DeterminePeriod 9).
Proof.
  split; [lia | ]. split; [lia | ].
  apply (DeterminePeriod_monotonic_from_1 3 9); lia.
Defined.

(** ** Hardware Programmer *)

Lemma to_u8_idem (x : Z) : to_u8 (to_u8 x) = to_u8 x.
Proof. unfold to_u8. apply Z.mod_mod. discriminate. Qed.

Lemma to_u8_wdps_of (w : Z) (b : bool) : to_u8 (wdps_of w b) = wdps_of w b.
Proof. unfold wdps_of. apply to_u8_idem. Qed.

Lemma WDTCSR_Configure (b : bool) (s : state) :
  WDTCSR (Configure b s) = wdps_of (_wdto s) b.
Proof. unfold Configure. cbn. apply to_u8_wdps_of. Qed.

(** [Configure] programs the mode its argument names, whatever the step. *)
Lemma mode_Configure (b : bool) (s : state) :
  mode (Configure b s) = if b then InterruptMode else ResetMode.
Proof.
  unfold mode. rewrite WDTCSR_Configure. unfold wdps_of.
  destruct (Z.land (_wdto s) 8 =? 0), (Z.land (_wdto s) 4 =? 0),
    (Z.land (_wdto s) 2 =? 0), (Z.land (_wdto s) 1 =? 0), b; reflexivity.
Qed.

(** The mode is read off WDTCSR alone. *)
Lemma mode_set_SREG_I (b : bool) (s : state) : mode (set_SREG_I b s) = mode s.
Proof. reflexivity. Qed.

Lemma mode_asleep (s : state) : mode (log EvSleepCpu (sleep_enable s)) = mode s.
Proof. reflexivity. Qed.

(** A time-out in Interrupt Mode leaves Reset Mode behind, and one in
    Reset Mode (had it not reset the device) changes nothing. *)
Lemma mode_WDE_set (s : state) :
  mode s = InterruptMode \/ mode s = ResetMode ->
  Z.testbit (WDTCSR s) WDE = true.
Proof.
  unfold mode, mode_of.
  destruct (Z.testbit (WDTCSR s) WDE), (Z.testbit (WDTCSR s) WDIE);
    intros [H | H]; solve [reflexivity | discriminate H].
Qed.

Lemma wdie_cleared_bits (s : state) :
  Z.testbit (WDTCSR (wdie_cleared s)) WDE = Z.testbit (WDTCSR s) WDE
  /\ Z.testbit (WDTCSR (wdie_cleared s)) WDIE = false.
Proof.
  change (WDTCSR (wdie_cleared s)) with (Z.land (WDTCSR s) 191).
  rewrite !Z.land_spec. split; [apply andb_true_r | apply andb_false_r].
Qed.

Lemma mode_wdie_cleared (s : state) :
  Z.testbit (WDTCSR s) WDE = true -> mode (wdie_cleared s) = ResetMode.
Proof.
  intros E. unfold mode, mode_of.
  destruct (wdie_cleared_bits s) as [E' I']. rewrite E', I', E. reflexivity.
Qed.

Lemma mode_timeout_of_Interrupt (s : state) :
  mode s = InterruptMode -> mode (wdt_timeout s) = ResetMode.
Proof.
  intros M. assert (E : Z.testbit (WDTCSR s) WDE = true)
    by (apply mode_WDE_set; left; exact M).
  unfold wdt_timeout. rewrite E. apply mode_wdie_cleared. exact E.
Qed.

Lemma mode_timeout_of_Reset (s : state) :
  mode s = ResetMode -> mode (wdt_timeout s) = ResetMode.
Proof.
  intros M. assert (E : Z.testbit (WDTCSR s) WDE = true)
    by (apply mode_WDE_set; right; exact M).
  unfold wdt_timeout. rewrite E. apply mode_wdie_cleared. exact E.
Qed.

(** The prescaler bits written for the four supported steps are those of
    the table in the source. *)
Lemma wdps_of_supported (b : bool) :
  map (fun w => wdps_of w b) supported_steps
  = map (fun p => Z.lor p (if b then 72 else 8)) [6; 7; 32; 33].
Proof. destruct b; reflexivity. Qed.

Lemma Configure_globals (b : bool) (s : state) :
  _wdto (Configure b s) = _wdto s
  /\ _sleepOrWaitCount (Configure b s) = _sleepOrWaitCount s
  /\ _waitTotal (Configure b s) = _waitTotal s.
Proof. repeat split. Qed.

Lemma Configure_naps (b : bool) (s : state) :
  naps (trace (Configure b s)) = naps (trace s).
Proof. reflexivity. Qed.

Lemma MCUSR_clear_WDRF_bits (m i : Z) :
  0 <= i < 8 ->
  Z.testbit (to_u8 (Z.land m (Z.lnot (_BV WDRF)))) i
  = if i =? WDRF then false else Z.testbit m i.
Proof.
  intros Hi. unfold to_u8. rewrite Z.mod_pow2_bits_low by lia.
  rewrite Z.land_spec, Z.lnot_spec by lia.
  unfold _BV. rewrite Z.shiftl_1_l, Z.pow2_bits_eqb by (unfold WDRF; lia).
  rewrite (Z.eqb_sym WDRF i).
  destruct (i =? WDRF); simpl; [apply andb_false_r | apply andb_true_r].
Qed.

(** C8, as stated: the interrupt flag is not restored.  When the handler
    calls [Configure] the flag is clear on entry and set on return. *)
Lemma Configure_does_not_restore_flag :
  let s := in_handler (Wait 8 (Watchdog 0 boot)) in
  SREG_I s = false
  /\ SREG_I (Configure false s) = true
  /\ SREG_I (Configure false s) <> SREG_I s
  /\ ISR_WDT_vect (Wait 8 (Watchdog 0 boot)) = set_SREG_I true (Configure false s).
Proof.
  vm_compute. split; [reflexivity | ]. split; [reflexivity | ].
  split; [discriminate | reflexivity].
Qed.

(** C8, amended.  For both argument values [Configure] performs its
    three register writes (MCUSR, the unlock WDTCSR = WDCE|WDE, then the
    configuration) with the global interrupt flag clear, then restarts
    the timer; it returns with the flag set whatever it was on entry
    (so the prior state is kept exactly when interrupts were enabled);
    the globals, SMCR, PRR and every MCUSR bit but WDRF are unchanged. *)
Theorem Configure_frame (sleepOrWait : bool) (s : state) :
  let s' := Configure sleepOrWait s in
  trace s' =
    EvWdr
    :: EvWrite RegWDTCSR (wdps_of (_wdto s) sleepOrWait) false
    :: EvWrite RegWDTCSR (Z.lor (_BV WDCE) (_BV WDE)) false
    :: EvWrite RegMCUSR (to_u8 (Z.land (MCUSR s) (Z.lnot (_BV WDRF)))) false
    :: trace s
  /\ SREG_I s' = true
  /\ (SREG_I s = true -> SREG_I s' = SREG_I s)
  /\ _wdto s' = _wdto s
  /\ _sleepOrWaitCount s' = _sleepOrWaitCount s
  /\ _waitTotal s' = _waitTotal s
  /\ SMCR s' = SMCR s
  /\ PRR s' = PRR s
  /\ (forall i, 0 <= i < 8 -> i <> WDRF ->
        Z.testbit (MCUSR s') i = Z.testbit (MCUSR s) i)
  /\ Z.testbit (MCUSR s') WDRF = false
  /\ wdt_timer s' = 0.
Proof.
  cbv zeta. split.
  - unfold Configure. cbn. rewrite to_u8_wdps_of. reflexivity.
  - split; [reflexivity | ]. split; [intros ->; reflexivity | ].
    do 5 (split; [reflexivity | ]).
    split; [ | split; [ | reflexivity]].
    + intros i Hi Hne. change (MCUSR (Configure sleepOrWait s))
        with (to_u8 (Z.land (MCUSR s) (Z.lnot (_BV WDRF)))).
      rewrite MCUSR_clear_WDRF_bits by exact Hi.
      destruct (Z.eqb_spec i WDRF); [contradiction | reflexivity].
    + change (MCUSR (Configure sleepOrWait s))
        with (to_u8 (Z.land (MCUSR s) (Z.lnot (_BV WDRF)))).
      rewrite MCUSR_clear_WDRF_bits by (unfold WDRF; lia). reflexivity.
Qed.

Lemma Configure_frame_witness :
  SREG_I boot = true
  /\ SREG_I (Configure true boot) = SREG_I boot
  /\ Z.testbit (MCUSR (Configure true boot)) 0 = Z.testbit (MCUSR boot) 0.
Proof.
  destruct (Configure_frame true boot) as (_ & _ & Hi & _ & _ & _ & _ & _ & Hm & _).
  split; [reflexivity | ]. split; [apply Hi; reflexivity | ].
  apply Hm; [lia | discriminate].
Defined.

(** ** Interrupt Handler *)

(** The handler in terms of the counter it has just incremented. *)
Lemma ISR_WDT_vect_cases (s : state) :
  let c := to_u64 (_sleepOrWaitCount s + 1) in
  c < _waitTotal s /\
    ISR_WDT_vect s = set_SREG_I true (Configure true (in_handler s))
  \/ c = _waitTotal s /\ _waitTotal s <> 0 /\
    ISR_WDT_vect s = set_SREG_I true (Configure false (in_handler s))
  \/ (_waitTotal s < c \/ c = _waitTotal s /\ _waitTotal s = 0) /\
    ISR_WDT_vect s = set_SREG_I true (in_handler s).
Proof.
  cbv zeta. unfold ISR_WDT_vect, ISR_body, in_handler.
  cbn [_sleepOrWaitCount _waitTotal set_sleepOrWaitCount set_SREG_I].
  destruct (Z.ltb_spec (to_u64 (_sleepOrWaitCount s + 1)) (_waitTotal s)) as [L | L];
    [left; split; [exact L | reflexivity] | ].
  destruct (Z.eqb_spec (to_u64 (_sleepOrWaitCount s + 1)) (_waitTotal s)) as [E | E];
    destruct (Z.eqb_spec (_waitTotal s) 0) as [T | T]; simpl.
  - right; right. split; [right; split; assumption | reflexivity].
  - right; left. split; [exact E | split; [exact T | reflexivity]].
  - right; right. split; [left; lia | reflexivity].
  - right; right. split; [left; lia | reflexivity].
Qed.

(** Whatever the handler does, it adds one to the counter, keeps the
    target and the step, and puts the CPU to sleep no more often. *)
Lemma ISR_WDT_vect_globals (s : state) :
  _sleepOrWaitCount (ISR_WDT_vect s) = to_u64 (_sleepOrWaitCount s + 1)
  /\ _waitTotal (ISR_WDT_vect s) = _waitTotal s
  /\ _wdto (ISR_WDT_vect s) = _wdto s
  /\ naps (trace (ISR_WDT_vect s)) = naps (trace s).
Proof.
  destruct (ISR_WDT_vect_cases s) as [[_ E] | [(_ & _ & E) | [_ E]]];
    rewrite E; repeat split.
Qed.

(** The time-out itself changes WDTCSR only. *)
Lemma wdt_timeout_frame (s : state) :
  _sleepOrWaitCount (wdt_timeout s) = _sleepOrWaitCount s
  /\ _waitTotal (wdt_timeout s) = _waitTotal s
  /\ _wdto (wdt_timeout s) = _wdto s
  /\ trace (wdt_timeout s) = trace s
  /\ PRR (wdt_timeout s) = PRR s
  /\ SMCR (wdt_timeout s) = SMCR s.
Proof. unfold wdt_timeout. destruct (Z.testbit (WDTCSR s) WDE); repeat split. Qed.

(** An expiry adds one to the counter, keeps the target and the step,
    and puts the CPU to sleep no more often. *)
Lemma WDT_expiry_globals (s : state) :
  _sleepOrWaitCount (WDT_expiry s) = to_u64 (_sleepOrWaitCount s + 1)
  /\ _waitTotal (WDT_expiry s) = _waitTotal s
  /\ _wdto (WDT_expiry s) = _wdto s
  /\ naps (trace (WDT_expiry s)) = naps (trace s).
Proof.
  unfold WDT_expiry.
  destruct (ISR_WDT_vect_globals (wdt_timeout s)) as (C & W & D & N).
  destruct (wdt_timeout_frame s) as (C' & W' & D' & T' & _).
  rewrite C, W, D, N, C', W', D', T'. repeat split.
Qed.

(** C2, as stated: the handler that completes a [Wait] does not clear the
    target.  After [Wait(8)] on the 8-second step the first firing finds
    the counter equal to the target 1 and leaves the target at 1. *)
Lemma ISR_keeps_target_on_completion :
  let s := Wait 8 (Watchdog 0 boot) in
  to_u64 (_sleepOrWaitCount s + 1) = _waitTotal s
  /\ _waitTotal s <> 0
  /\ mode (ISR_WDT_vect s) = ResetMode
  /\ _waitTotal (ISR_WDT_vect s) = 1
  /\ _waitTotal (ISR_WDT_vect s) <> 0.
Proof.
  vm_compute. split; [reflexivity | ]. split; [discriminate | ].
  split; [reflexivity | ]. split; [reflexivity | discriminate].
Qed.

(** C2, amended.  When the handler fires and the incremented counter
    equals a non-zero target, it programs Reset Mode with one call of
    [Configure()] and leaves the target as it was (non-zero). *)
Theorem ISR_completes_Wait (s : state) :
  to_u64 (_sleepOrWaitCount s + 1) = _waitTotal s ->
  _waitTotal s <> 0 ->
  ISR_WDT_vect s = set_SREG_I true (Configure false (in_handler s))
  /\ mode (ISR_WDT_vect s) = ResetMode
  /\ _sleepOrWaitCount (ISR_WDT_vect s) = _waitTotal s
  /\ _waitTotal (ISR_WDT_vect s) = _waitTotal s.
Proof.
  intros E T.
  destruct (ISR_WDT_vect_cases s) as [[L _] | [(_ & _ & R) | [[L | [_ Z0]] _]]];
    try lia.
  split; [exact R | ]. split.
  - rewrite R, mode_set_SREG_I. apply mode_Configure.
  - destruct (ISR_WDT_vect_globals s) as (C & W & _). rewrite C, W. auto.
Qed.

Lemma ISR_completes_Wait_witness :
  let s := fire 1 (Wait 20 (Watchdog 0 boot)) in
  to_u64 (_sleepOrWaitCount s + 1) = _waitTotal s
  /\ _waitTotal s <> 0
  /\ mode (ISR_WDT_vect s) = ResetMode
  /\ _waitTotal (ISR_WDT_vect s) = _waitTotal s.
Proof.
  cbv zeta.
  assert (E : to_u64 (_sleepOrWaitCount (fire 1 (Wait 20 (Watchdog 0 boot))) + 1)
              = _waitTotal (fire 1 (Wait 20 (Watchdog 0 boot)))) by (vm_compute; reflexivity).
  assert (T : _waitTotal (fire 1 (Wait 20 (Watchdog 0 boot))) <> 0) by (vm_compute; discriminate).
  split; [exact E | ]. split; [exact T | ].
  destruct (ISR_completes_Wait _ E T) as (_ & M & _ & W).
  split; [exact M | exact W].
Defined.

(** C3, as stated: with a zero target the handler does not re-arm.  In
    the loop of [Sleep(16)] after a [Reset()], the handler writes no
    register and restarts no timer; entered with WDIE cleared by the
    hardware it returns in Reset Mode. *)
Lemma ISR_does_not_rearm_on_zero_target :
  let s := log EvSleepCpu (sleep_enable (Sleep_prologue (Reset 0 (Watchdog 0 boot)))) in
  _waitTotal s = 0
  /\ mode s = InterruptMode
  /\ trace (ISR_WDT_vect s) = trace s
  /\ trace (ISR_WDT_vect s) <> trace (Configure true s)
  /\ WDTCSR (ISR_WDT_vect (wdie_cleared s)) = WDTCSR (wdie_cleared s)
  /\ mode (ISR_WDT_vect (wdie_cleared s)) = ResetMode
  /\ mode (ISR_WDT_vect (wdie_cleared s)) <> InterruptMode.
Proof.
  vm_compute. do 3 (split; [reflexivity | ]). split; [discriminate | ].
  do 2 (split; [reflexivity | ]). discriminate.
Qed.

(** C3, amended.  When the handler fires while the target is zero it
    only increments the counter: registers, timer and log are as they
    were, so the mode is the one it was entered with.  The re-arming is
    done by the loop of [Sleep]: every turn of its body ends with
    [Configure(true)] and so in Interrupt Mode. *)
Theorem ISR_zero_target_only_counts (s : state) :
  _waitTotal s = 0 ->
  ISR_WDT_vect s
  = set_SREG_I true (set_sleepOrWaitCount (to_u64 (_sleepOrWaitCount s + 1)) s)
  /\ WDTCSR (ISR_WDT_vect s) = WDTCSR s
  /\ mode (ISR_WDT_vect s) = mode s
  /\ trace (ISR_WDT_vect s) = trace s
  /\ forall k, mode (Sleep_body k s) = InterruptMode.
Proof.
  intros T0.
  assert (B : 0 <= to_u64 (_sleepOrWaitCount s + 1))
    by (unfold to_u64; apply Z.mod_pos_bound; reflexivity).
  assert (R : ISR_WDT_vect s = set_SREG_I true (in_handler s)).
  { destruct (ISR_WDT_vect_cases s) as [[L _] | [(_ & N & _) | [_ R]]];
      [lia | contradiction | exact R]. }
  rewrite R. repeat split.
  intros k. unfold Sleep_body. apply (mode_Configure true).
Qed.

Lemma ISR_zero_target_only_counts_witness :
  let s := wdie_cleared (Sleep_prologue (Reset 0 (Watchdog 0 boot))) in
  _waitTotal s = 0
  /\ mode (ISR_WDT_vect s) = mode s
  /\ mode (Sleep_body 1 s) = InterruptMode.
Proof.
  cbv zeta.
  assert (T : _waitTotal (wdie_cleared (Sleep_prologue (Reset 0 (Watchdog 0 boot)))) = 0)
    by reflexivity.
  destruct (ISR_zero_target_only_counts _ T) as (_ & _ & M & _ & B).
  split; [exact T | ]. split; [exact M | apply B].
Defined.

(** ** Cycle Sequencer: the number of cycles *)

(** [Sleep] divides by the seconds of the current step. *)
Lemma Sleep_ncycles_floor (wdto d : Z) :
  In wdto supported_steps -> Sleep_ncycles wdto d = d / stepSeconds wdto.
Proof.
  intros H. each_step H; unfold Sleep_ncycles; simpl.
  - rewrite stepSeconds_1S. symmetry. apply Z.div_1_r.
  - rewrite stepSeconds_2S. reflexivity.
  - rewrite stepSeconds_4S. reflexivity.
  - rewrite stepSeconds_8S. reflexivity.
Qed.

(** [Wait] computes the same quotient, but through an [int]. *)
Lemma Wait_ncycles_to_int (wdto d : Z) :
  In wdto supported_steps -> Wait_ncycles wdto d = to_int (d / stepSeconds wdto).
Proof.
  intros H. each_step H; unfold Wait_ncycles; simpl.
  - rewrite stepSeconds_1S, Z.div_1_r. reflexivity.
  - rewrite stepSeconds_2S. reflexivity.
  - rewrite stepSeconds_4S. reflexivity.
  - rewrite stepSeconds_8S. reflexivity.
Qed.

Lemma Wait_target (d : Z) (s : state) :
  _waitTotal (Wait d s) = to_u64 (Wait_ncycles (_wdto s) d).
Proof. reflexivity. Qed.

(** As long as the quotient fits an [int], [Wait] stores it as it is. *)
Lemma Wait_target_in_int_range (d : Z) (s : state) :
  In (_wdto s) supported_steps ->
  0 <= d / stepSeconds (_wdto s) < 2 ^ 15 ->
  _waitTotal (Wait d s) = d / stepSeconds (_wdto s).
Proof.
  intros Hw Hq. rewrite Wait_target, Wait_ncycles_to_int by exact Hw.
  rewrite to_int_small by lia. apply to_u64_small.
  assert (2 ^ 15 < 2 ^ 64) by reflexivity. lia.
Qed.

(** C4 at a failing input.  On the 8-second step [Sleep(262144)] runs
    [262144 / 8 = 32768] cycles, while [Wait(262144)] stores
    [2^64 - 32768] as the target: the quotient passes through the
    16-bit [int ncycles] and comes out negative. *)
Theorem Wait_target_truncated :
  let s := Watchdog 0 boot in
  stepSeconds (_wdto s) = 8
  /\ 262144 / stepSeconds (_wdto s) = 32768
  /\ Sleep_ncycles (_wdto s) 262144 = 32768
  /\ Wait_ncycles (_wdto s) 262144 = -32768
  /\ _waitTotal (Wait 262144 s) = 18446744073709518848
  /\ _waitTotal (Wait 262144 s) <> 262144 / stepSeconds (_wdto s).
Proof.
  vm_compute. do 5 (split; [reflexivity | ]). discriminate.
Qed.

(** ** Cycle Sequencer: [Reset] *)

Lemma Reset_0_cases (s : state) :
  let s1 := if negb (Z.land (WDTCSR s) (_BV WDE) =? 0)
               || negb (Z.land (MCUSR s) (_BV WDRF) =? 0)
            then wdt_reset s else s in
  _waitTotal s <> 0 /\ Reset 0 s = Configure false (set_waitTotal 0 s1)
  \/ _waitTotal s = 0 /\ Reset 0 s = s1.
Proof.
  cbv zeta. unfold Reset. change (negb (0 =? 0)) with false. cbv iota.
  set (s1 := if negb (Z.land (WDTCSR s) (_BV WDE) =? 0)
                || negb (Z.land (MCUSR s) (_BV WDRF) =? 0)
             then wdt_reset s else s).
  assert (W : _waitTotal s1 = _waitTotal s)
    by (subst s1; destruct (_ || _); reflexivity).
  rewrite W. destruct (Z.eqb_spec (_waitTotal s) 0) as [E | E]; simpl.
  - right. split; [exact E | reflexivity].
  - left. split; [exact E | reflexivity].
Qed.

(** C6, as stated: [Reset()] does not always end in Reset Mode.  After
    [Wait(3)] on the 8-second step the target is 0 and the watchdog is
    armed in Interrupt Mode; [Reset()] then leaves WDTCSR alone. *)
Lemma Reset_leaves_Interrupt_mode :
  let s := Wait 3 (Watchdog 0 boot) in
  _waitTotal s = 0
  /\ mode s = InterruptMode
  /\ mode (Reset 0 s) = InterruptMode
  /\ mode (Reset 0 s) <> ResetMode.
Proof.
  vm_compute. do 3 (split; [reflexivity | ]). discriminate.
Qed.

(** C6, amended.  [Reset()] always leaves the target at zero.  If the
    target was non-zero it reprograms the watchdog in Reset Mode; if the
    target was already zero it does not touch WDTCSR, so the mode stays
    what it was. *)
Theorem Reset_no_args (s : state) :
  _waitTotal (Reset 0 s) = 0
  /\ (_waitTotal s <> 0 -> mode (Reset 0 s) = ResetMode)
  /\ (_waitTotal s = 0 ->
      WDTCSR (Reset 0 s) = WDTCSR s /\ mode (Reset 0 s) = mode s).
Proof.
  destruct (Reset_0_cases s) as [[N E] | [Z0 E]]; rewrite E.
  - split; [reflexivity | ]. split; [intros _; apply (mode_Configure false) | ].
    intros Z0. contradiction.
  - assert (R : WDTCSR (if negb (Z.land (WDTCSR s) (_BV WDE) =? 0)
                           || negb (Z.land (MCUSR s) (_BV WDRF) =? 0)
                        then wdt_reset s else s) = WDTCSR s)
      by (destruct (_ || _); reflexivity).
    split; [destruct (_ || _); exact Z0 | ].
    split; [intros N; contradiction | ].
    intros _. split; [exact R | unfold mode; rewrite R; reflexivity].
Qed.

Lemma Reset_no_args_witness :
  _waitTotal (Watchdog 0 boot) <> 0
  /\ mode (Reset 0 (Watchdog 0 boot)) = ResetMode
  /\ _waitTotal (Reset 0 (Watchdog 0 boot)) = 0
  /\ _waitTotal (Wait 3 (Watchdog 0 boot)) = 0
  /\ mode (Reset 0 (Wait 3 (Watchdog 0 boot))) = mode (Wait 3 (Watchdog 0 boot)).
Proof.
  assert (N : _waitTotal (Watchdog 0 boot) <> 0) by discriminate.
  assert (T : _waitTotal (Wait 3 (Watchdog 0 boot)) = 0) by reflexivity.
  destruct (Reset_no_args (Watchdog 0 boot)) as (Z0 & M & _).
  split; [exact N | ]. split; [exact (M N) | ]. split; [exact Z0 | ].
  split; [exact T | ].
  apply (Reset_no_args (Wait 3 (Watchdog 0 boot))). exact T.
Defined.

(** ** Cycle Sequencer: the loop of [Sleep] *)

Lemma fire_globals (k : nat) (s : state) :
  _waitTotal (fire k s) = _waitTotal s /\ _wdto (fire k s) = _wdto s.
Proof.
  revert s. induction k as [ | k IH]; intros s; simpl; [split; reflexivity | ].
  destruct (IH (WDT_expiry s)) as [W D].
  destruct (WDT_expiry_globals s) as (_ & W' & D' & _).
  rewrite W, D, W', D'. split; reflexivity.
Qed.

Lemma Sleep_body_globals (k : nat) (s : state) :
  _waitTotal (Sleep_body k s) = _waitTotal s /\ _wdto (Sleep_body k s) = _wdto s.
Proof.
  unfold Sleep_body, sleep_mode, sleep_cpu.
  change (_waitTotal (fire k (log EvSleepCpu (sleep_enable s))) = _waitTotal s
          /\ _wdto (fire k (log EvSleepCpu (sleep_enable s))) = _wdto s).
  apply (fire_globals k (log EvSleepCpu (sleep_enable s))).
Qed.

(** One turn of the loop in which the handler fires once: one more nap,
    the counter one higher. *)
Lemma Sleep_body_one (s : state) :
  _sleepOrWaitCount (Sleep_body 1 s) = to_u64 (_sleepOrWaitCount s + 1)
  /\ naps (trace (Sleep_body 1 s)) = S (naps (trace s)).
Proof.
  unfold Sleep_body, sleep_mode, sleep_cpu, fire.
  change (_sleepOrWaitCount (WDT_expiry (log EvSleepCpu (sleep_enable s)))
          = to_u64 (_sleepOrWaitCount s + 1)
          /\ naps (trace (WDT_expiry (log EvSleepCpu (sleep_enable s))))
             = S (naps (trace s))).
  destruct (WDT_expiry_globals (log EvSleepCpu (sleep_enable s))) as (C & _ & _ & N).
  rewrite C, N. split; reflexivity.
Qed.

(** With one handler firing per wake and wakes enough, the loop returns
    after exactly [ncycles - count] turns with the counter at [ncycles]. *)
Lemma Sleep_loop_exact (wakes : list nat) :
  Forall (eq 1%nat) wakes ->
  forall (ncycles : Z) (s : state),
    0 <= _sleepOrWaitCount s <= ncycles -> ncycles < 2 ^ 64 ->
    (Z.to_nat (ncycles - _sleepOrWaitCount s) <= length wakes)%nat ->
    exists s',
      Sleep_loop wakes ncycles s = Some s'
      /\ _sleepOrWaitCount s' = ncycles
      /\ naps (trace s')
         = (naps (trace s) + Z.to_nat (ncycles - _sleepOrWaitCount s))%nat.
Proof.
  induction 1 as [ | k wakes Hk Hall IH]; intros ncycles s Hc Hn Hlen; simpl in *.
  - assert (E : _sleepOrWaitCount s = ncycles) by lia.
    rewrite E, Z.ltb_irrefl. exists s. rewrite Z.sub_diag. simpl.
    rewrite Nat.add_0_r. auto.
  - destruct (Z.ltb_spec (_sleepOrWaitCount s) ncycles) as [L | L].
    + subst k. destruct (Sleep_body_one s) as [C N].
      assert (C' : _sleepOrWaitCount (Sleep_body 1 s) = _sleepOrWaitCount s + 1)
        by (rewrite C; apply to_u64_small; lia).
      destruct (IH ncycles (Sleep_body 1 s)) as (s' & R & Cs & Ns); try lia.
      exists s'. split; [exact R | ]. split; [exact Cs | ].
      rewrite Ns, N, C'. lia.
    + assert (E : _sleepOrWaitCount s = ncycles) by lia.
      exists s. rewrite E, Z.sub_diag. simpl. rewrite Nat.add_0_r. auto.
Qed.

Lemma Sleep_prologue_facts (s : state) :
  _sleepOrWaitCount (Sleep_prologue s) = 0
  /\ _waitTotal (Sleep_prologue s) = _waitTotal s
  /\ _wdto (Sleep_prologue s) = _wdto s
  /\ naps (trace (Sleep_prologue s)) = naps (trace s)
  /\ mode (Sleep_prologue s) = InterruptMode.
Proof. repeat split. apply (mode_Configure true s). Qed.

(** C9.  [Sleep(d)] sets the counter to 0 before its loop; when every
    wake is one firing of the handler (and the wakes last), the call
    returns with the counter at [ncycles = d / stepSeconds] after having
    put the CPU to sleep exactly [ncycles] times; for [d = 16] on the
    8-second step that is twice. *)
Theorem Sleep_counts_cycles (wakes : list nat) (d : Z) (s : state) :
  0 <= d < 2 ^ 64 ->
  In (_wdto s) supported_steps ->
  Forall (eq 1%nat) wakes ->
  (Z.to_nat (d / stepSeconds (_wdto s)) <= length wakes)%nat ->
  _sleepOrWaitCount (Sleep_prologue s) = 0
  /\ exists s',
      Sleep wakes d s = Some s'
      /\ _sleepOrWaitCount s' = d / stepSeconds (_wdto s)
      /\ naps (trace s') = (naps (trace s) + Z.to_nat (d / stepSeconds (_wdto s)))%nat
      /\ (d = 16 -> _wdto s = WDTO_8S -> naps (trace s') = (naps (trace s) + 2)%nat).
Proof.
  intros Hd Hw Hall Hlen. split; [reflexivity | ].
  assert (Hq : 0 <= d / stepSeconds (_wdto s) <= d).
  { each_step Hw; vm_compute stepSeconds; split;
      solve [apply Z.div_pos; lia | apply Z.div_le_upper_bound; lia]. }
  destruct (Sleep_prologue_facts s) as (C0 & _ & _ & N0 & _).
  destruct (Sleep_loop_exact wakes Hall (d / stepSeconds (_wdto s)) (Sleep_prologue s))
    as (s1 & R & C1 & N1); rewrite ?C0, ?Z.sub_0_r; try lia.
  unfold Sleep. rewrite Sleep_ncycles_floor by exact Hw. rewrite R.
  exists (Sleep_epilogue s1). split; [reflexivity | ].
  rewrite C0, Z.sub_0_r, N0 in N1.
  split; [exact C1 | ]. split; [exact N1 | ].
  intros -> E. etransitivity; [exact N1 | ]. rewrite E. reflexivity.
Qed.

Lemma Sleep_counts_cycles_witness :
  let s := Reset 0 (Watchdog 0 boot) in
  0 <= 16 < 2 ^ 64
  /\ In (_wdto s) supported_steps
  /\ Forall (eq 1%nat) [1%nat; 1%nat]
  /\ (Z.to_nat (16 / stepSeconds (_wdto s)) <= length [1%nat; 1%nat])%nat
  /\ exists s',
      Sleep [1%nat; 1%nat] 16 s = Some s'
      /\ _sleepOrWaitCount s' = 16 / stepSeconds (_wdto s)
      /\ naps (trace s') = (naps (trace s) + 2)%nat.
Proof.
  cbv zeta.
  assert (Hd : 0 <= 16 < 2 ^ 64) by (split; [discriminate | reflexivity]).
  assert (Hw : In (_wdto (Reset 0 (Watchdog 0 boot))) supported_steps)
    by (right; right; right; left; reflexivity).
  assert (Hall : Forall (eq 1%nat) [1%nat; 1%nat]) by (repeat constructor).
  assert (Hlen : (Z.to_nat (16 / stepSeconds (_wdto (Reset 0 (Watchdog 0 boot))))
                  <= length [1%nat; 1%nat])%nat) by (vm_compute; constructor).
  do 4 (split; [assumption | ]).
  destruct (Sleep_counts_cycles [1%nat; 1%nat] 16 _ Hd Hw Hall Hlen)
    as (_ & s' & R & C & _ & N).
  exists s'. split; [exact R | ]. split; [exact C | ].
  apply N; reflexivity.
Defined.

(** ** Program points of [Sleep] *)

Lemma sleep_mode_globals (k : nat) (s : state) :
  _waitTotal (sleep_mode k s) = _waitTotal s.
Proof.
  unfold sleep_mode, sleep_cpu.
  change (_waitTotal (fire k (log EvSleepCpu (sleep_enable s))) = _waitTotal s).
  apply (fire_globals k (log EvSleepCpu (sleep_enable s))).
Qed.

Lemma Sleep_loop_points_target (wakes : list nat) (ncycles : Z) :
  forall s c, In c (Sleep_loop_points wakes ncycles s) ->
              _waitTotal (snd c) = _waitTotal s.
Proof.
  induction wakes as [ | k wakes IH]; intros s c; simpl;
    destruct (_sleepOrWaitCount s <? ncycles); simpl; intros H.
  - destruct H as [<- | [<- | []]]; reflexivity.
  - destruct H as [<- | [<- | []]]; reflexivity.
  - destruct H as [<- | [<- | [<- | H]]]; try reflexivity.
    + apply sleep_mode_globals.
    + rewrite (IH _ _ H). exact (proj1 (Sleep_body_globals k s)).
  - destruct H as [<- | [<- | []]]; reflexivity.
Qed.

Lemma Sleep_loop_points_modes (wakes : list nat) (ncycles : Z) :
  forall s, mode s = InterruptMode ->
            Forall point_mode_ok (Sleep_loop_points wakes ncycles s).
Proof.
  induction wakes as [ | k wakes IH]; intros s M; simpl;
    destruct (_sleepOrWaitCount s <? ncycles);
    repeat (apply Forall_cons || apply Forall_nil);
    try exact M; try exact I; try apply (mode_Configure false).
  apply IH. unfold Sleep_body. apply (mode_Configure true).
Qed.

(** The loop returns exactly when the list of points ends in the return. *)
Lemma Sleep_loop_points_returned (wakes : list nat) (ncycles : Z) :
  forall s st,
    In (Returned, st) (Sleep_loop_points wakes ncycles s) <->
    exists s1, Sleep_loop wakes ncycles s = Some s1 /\ st = Sleep_epilogue s1.
Proof.
  induction wakes as [ | k wakes IH]; intros s st; simpl;
    destruct (_sleepOrWaitCount s <? ncycles); simpl.
  - split.
    + intros [H | [H | []]]; discriminate.
    + intros (s1 & H & _). discriminate.
  - split.
    + intros [H | [H | []]]; [discriminate | ].
      exists s. split; [reflexivity | congruence].
    + intros (s1 & H & ->). right; left. congruence.
  - rewrite <- IH. split.
    + intros [H | [H | [H | H]]]; try discriminate. exact H.
    + intros H. right; right; right. exact H.
  - split.
    + intros [H | [H | []]]; [discriminate | ].
      exists s. split; [reflexivity | congruence].
    + intros (s1 & H & ->). right; left. congruence.
Qed.

Lemma Sleep_points_target (wakes : list nat) (d : Z) (s : state) (c : point * state) :
  In c (Sleep_points wakes d s) -> _waitTotal (snd c) = _waitTotal s.
Proof.
  intros H. unfold Sleep_points in H.
  apply Sleep_loop_points_target in H. exact H.
Qed.

Lemma Sleep_keeps_target (wakes : list nat) (d : Z) (s s' : state) :
  Sleep wakes d s = Some s' -> _waitTotal s' = _waitTotal s.
Proof.
  intros H. unfold Sleep in H.
  destruct (Sleep_loop wakes (Sleep_ncycles (_wdto s) d) (Sleep_prologue s))
    as [s1 | ] eqn:E; [ | discriminate].
  injection H as <-.
  apply (Sleep_points_target wakes d s (Returned, Sleep_epilogue s1)).
  unfold Sleep_points. apply Sleep_loop_points_returned.
  exists s1. split; [exact E | reflexivity].
Qed.

(** No call other than [Wait] and [Reset], and no expiry, writes the
    target. *)
Lemma do_calls_target (cs : list call) :
  forall s s', do_calls cs s = Some s' -> _waitTotal s' = _waitTotal s.
Proof.
  induction cs as [ | c cs IH]; intros s s' H; simpl in H.
  - injection H as <-. reflexivity.
  - destruct (do_call c s) as [s1 | ] eqn:E; [ | discriminate].
    rewrite (IH _ _ H). destruct c; simpl in E.
    + injection E as <-. reflexivity.
    + injection E as <-. reflexivity.
    + apply (Sleep_keeps_target _ _ _ _ E).
    + injection E as <-. apply WDT_expiry_globals.
Qed.

(** The constructor and [Configure] leave the counter alone. *)
Lemma do_calls_counter (cs : list call) :
  forallb no_expiry cs = true ->
  forall s s', do_calls cs s = Some s' -> _sleepOrWaitCount s' = _sleepOrWaitCount s.
Proof.
  induction cs as [ | c cs IH]; intros Hn s s' H; simpl in *.
  - injection H as <-. reflexivity.
  - apply andb_prop in Hn. destruct Hn as [Hc Hcs].
    destruct c; try discriminate Hc; simpl in H; rewrite (IH Hcs _ _ H); reflexivity.
Qed.

(** With the target at 1 and the counter at 0 the handler counts to 1,
    meets the target and calls [Configure()]. *)
Lemma ISR_meets_target_one (s : state) :
  _waitTotal s = 1 -> _sleepOrWaitCount s = 0 ->
  _sleepOrWaitCount (ISR_WDT_vect s) = 1
  /\ ISR_WDT_vect s = set_SREG_I true (Configure false (in_handler s))
  /\ mode (ISR_WDT_vect s) = ResetMode.
Proof.
  intros T C.
  assert (E : to_u64 (_sleepOrWaitCount s + 1) = 1) by (rewrite C; reflexivity).
  destruct (ISR_WDT_vect_cases s) as [[L _] | [(_ & _ & R) | [[L | [_ Z0]] _]]];
    try lia.
  destruct (ISR_WDT_vect_globals s) as (Cs & _).
  split; [rewrite Cs; exact E | ]. split; [exact R | ].
  rewrite R, mode_set_SREG_I. apply mode_Configure.
Qed.

Lemma WDT_expiry_meets_target_one (s : state) :
  _waitTotal s = 1 -> _sleepOrWaitCount s = 0 ->
  _sleepOrWaitCount (WDT_expiry s) = 1
  /\ WDT_expiry s = set_SREG_I true (Configure false (in_handler (wdt_timeout s)))
  /\ mode (WDT_expiry s) = ResetMode.
Proof.
  intros T C. unfold WDT_expiry.
  destruct (wdt_timeout_frame s) as (C' & T' & _).
  apply ISR_meets_target_one; [rewrite T'; exact T | rewrite C'; exact C].
Qed.

(** C10, as stated: "before any call to [Wait]" does not keep the target
    at 1, since [Reset] zeroes it.  Construction, [Reset()], then
    [Sleep]: at the first expiry the counter goes to 1, the target is 0,
    and the handler writes no register, so it does not program Reset
    Mode. *)
Lemma first_firing_after_Reset_writes_nothing :
  let s := log EvSleepCpu (sleep_enable (Sleep_prologue (Reset 0 (Watchdog 0 boot)))) in
  mode s = InterruptMode
  /\ _sleepOrWaitCount s = 0
  /\ _waitTotal s = 0
  /\ _sleepOrWaitCount (WDT_expiry s) = 1
  /\ _sleepOrWaitCount (WDT_expiry s) <> _waitTotal (WDT_expiry s)
  /\ trace (WDT_expiry s) = trace s
  /\ trace (WDT_expiry s) <> trace (Configure false (in_handler (wdt_timeout s))).
Proof.
  vm_compute. do 4 (split; [reflexivity | ]). split; [discriminate | ].
  split; [reflexivity | discriminate].
Qed.

(** C10, amended.  The target starts at 1, and no call other than [Wait]
    and [Reset] writes it: after any run of constructor, [Configure],
    [Sleep] and watchdog expiries from program start it is still 1.  So
    before any call to [Wait] or [Reset] the first expiry of all, and
    the first expiry of any [Sleep], finds the counter at 0, counts to
    1, meets the target and calls [Configure()], which programs Reset
    Mode.  Nothing in [Sleep] writes the target: at every point of a
    [Sleep] call, and when it returns, the target is the one the call
    was entered with. *)
Theorem initial_target_until_Wait_or_Reset :
  _waitTotal boot = 1
  /\ (forall cs s, do_calls cs boot = Some s -> _waitTotal s = 1)
  /\ (forall s, _waitTotal s = 1 -> _sleepOrWaitCount s = 0 ->
        _sleepOrWaitCount (ISR_WDT_vect s) = 1
        /\ ISR_WDT_vect s = set_SREG_I true (Configure false (in_handler s))
        /\ mode (ISR_WDT_vect s) = ResetMode)
  /\ (forall cs s,
        do_calls cs boot = Some s -> forallb no_expiry cs = true ->
        _sleepOrWaitCount (WDT_expiry s) = 1
        /\ WDT_expiry s = set_SREG_I true (Configure false (in_handler (wdt_timeout s)))
        /\ mode (WDT_expiry s) = ResetMode)
  /\ (forall cs s,
        do_calls cs boot = Some s ->
        let s1 := log EvSleepCpu (sleep_enable (Sleep_prologue s)) in
        mode s1 = InterruptMode
        /\ _sleepOrWaitCount (WDT_expiry s1) = 1
        /\ WDT_expiry s1 = set_SREG_I true (Configure false (in_handler (wdt_timeout s1)))
        /\ mode (WDT_expiry s1) = ResetMode)
  /\ (forall wakes d s c,
        In c (Sleep_points wakes d s) -> _waitTotal (snd c) = _waitTotal s)
  /\ (forall wakes d s s',
        Sleep wakes d s = Some s' -> _waitTotal s' = _waitTotal s).
Proof.
  assert (Ht : forall cs s, do_calls cs boot = Some s -> _waitTotal s = 1)
    by (intros cs s H; apply (do_calls_target cs boot s H)).
  split; [reflexivity | ]. split; [exact Ht | ].
  split; [exact ISR_meets_target_one | ]. split; [ | split; [ | split]].
  - intros cs s H Hn. apply WDT_expiry_meets_target_one; [exact (Ht cs s H) | ].
    apply (do_calls_counter cs Hn boot s H).
  - intros cs s H s1. subst s1. rewrite mode_asleep.
    split; [apply Sleep_prologue_facts | ].
    apply WDT_expiry_meets_target_one; [ | reflexivity].
    change (_waitTotal s = 1). exact (Ht cs s H).
  - exact Sleep_points_target.
  - exact Sleep_keeps_target.
Qed.

Lemma initial_target_until_Wait_or_Reset_witness :
  let cs := [CallWatchdog 0; CallConfigure true] in
  let s := Configure true (Watchdog 0 boot) in
  let cs' := [CallWatchdog 0; CallSleep [1%nat; 1%nat] 16; Expiry] in
  let s' := WDT_expiry (Sleep_epilogue (Sleep_body 1 (Sleep_body 1 (Sleep_prologue (Watchdog 0 boot))))) in
  do_calls cs boot = Some s
  /\ forallb no_expiry cs = true
  /\ mode (WDT_expiry s) = ResetMode
  /\ do_calls cs' boot = Some s'
  /\ _waitTotal s' = 1
  /\ mode (WDT_expiry (log EvSleepCpu (sleep_enable (Sleep_prologue s')))) = ResetMode
  /\ In (Woken, sleep_mode 1 (Sleep_prologue s')) (Sleep_points [1%nat; 1%nat] 16 s')
  /\ _waitTotal (sleep_mode 1 (Sleep_prologue s')) = _waitTotal s'
  /\ _waitTotal (Watchdog 0 boot) = 1 /\ _sleepOrWaitCount (Watchdog 0 boot) = 0
  /\ mode (ISR_WDT_vect (Watchdog 0 boot)) = ResetMode.
Proof.
  cbv zeta.
  destruct initial_target_until_Wait_or_Reset as (_ & Ht & Hisr & Hfirst & Hsleep & Hpts & _).
  assert (R : do_calls [CallWatchdog 0; CallConfigure true] boot
              = Some (Configure true (Watchdog 0 boot))) by reflexivity.
  assert (N : forallb no_expiry [CallWatchdog 0; CallConfigure true] = true) by reflexivity.
  assert (R' : do_calls [CallWatchdog 0; CallSleep [1%nat; 1%nat] 16; Expiry] boot
               = Some (WDT_expiry (Sleep_epilogue (Sleep_body 1 (Sleep_body 1
                         (Sleep_prologue (Watchdog 0 boot)))))))
    by (vm_compute; reflexivity).
  assert (P : In (Woken, sleep_mode 1 (Sleep_prologue
                   (WDT_expiry (Sleep_epilogue (Sleep_body 1 (Sleep_body 1
                      (Sleep_prologue (Watchdog 0 boot))))))))
                 (Sleep_points [1%nat; 1%nat] 16
                   (WDT_expiry (Sleep_epilogue (Sleep_body 1 (Sleep_body 1
                      (Sleep_prologue (Watchdog 0 boot))))))))
    by (vm_compute; right; right; left; reflexivity).
  assert (T : _waitTotal (Watchdog 0 boot) = 1) by reflexivity.
  assert (C : _sleepOrWaitCount (Watchdog 0 boot) = 0) by reflexivity.
  split; [exact R | ]. split; [exact N | ].
  split; [apply (Hfirst _ _ R N) | ]. split; [exact R' | ].
  split; [exact (Ht _ _ R') | ].
  split; [apply (Hsleep _ _ R') | ]. split; [exact P | ].
  split; [exact (Hpts _ _ _ _ P) | ]. split; [exact T | ]. split; [exact C | ].
  apply (Hisr _ T C).
Defined.

(** ** Operating mode during a sequence *)

(** C5, as stated: the mode can be Reset Mode while a [Sleep] is still in
    progress.  [Sleep(16)] right after construction, 8-second step: when
    the foreground resumes after the first wake the counter is 1 of 2
    and the handler has programmed Reset Mode. *)
Lemma Sleep_in_Reset_mode_mid_sequence :
  let s := Watchdog 0 boot in
  let pts := Sleep_points [1%nat; 1%nat] 16 s in
  Sleep_ncycles (_wdto s) 16 = 2
  /\ option_map fst (nth_error pts 2) = Some Woken
  /\ option_map (fun c => _sleepOrWaitCount (snd c)) (nth_error pts 2) = Some 1
  /\ option_map (fun c => mode (snd c)) (nth_error pts 2) = Some ResetMode
  /\ ~ (forall c, In c pts ->
          _sleepOrWaitCount (snd c) < Sleep_ncycles (_wdto s) 16 ->
          mode (snd c) <> ResetMode).
Proof.
  cbv zeta. do 4 (split; [vm_compute; reflexivity | ]).
  intros H.
  apply (H (Woken, sleep_mode 1 (Sleep_prologue (Watchdog 0 boot)))).
  - right; right; left. reflexivity.
  - vm_compute. reflexivity.
  - vm_compute. reflexivity.
Qed.

(** C5, amended.  In a [Sleep] call the mode is Interrupt Mode each time
    the loop condition is tested and each time the CPU is put to sleep,
    and Reset Mode at the return; a call that returns did pass through
    that return point.  [Wait] returns in Interrupt Mode, and a firing
    of the handler that leaves the counter below the target re-arms
    Interrupt Mode.  Nothing is said of the mode between the handler's
    return and the loop's next [Configure(true)]. *)
Theorem Sleep_Wait_modes :
  (forall wakes d s, Forall point_mode_ok (Sleep_points wakes d s))
  /\ (forall wakes d s s',
        Sleep wakes d s = Some s' ->
        In (Returned, s') (Sleep_points wakes d s) /\ mode s' = ResetMode)
  /\ (forall d s, mode (Wait d s) = InterruptMode)
  /\ (forall s, to_u64 (_sleepOrWaitCount s + 1) < _waitTotal s ->
        mode (ISR_WDT_vect s) = InterruptMode).
Proof.
  split; [ | split; [ | split]].
  - intros wakes d s. unfold Sleep_points.
    apply Sleep_loop_points_modes. apply Sleep_prologue_facts.
  - intros wakes d s s' H. unfold Sleep in H.
    destruct (Sleep_loop wakes (Sleep_ncycles (_wdto s) d) (Sleep_prologue s))
      as [s1 | ] eqn:E; [ | discriminate].
    injection H as <-. split; [ | apply (mode_Configure false)].
    unfold Sleep_points. apply Sleep_loop_points_returned.
    exists s1. split; [exact E | reflexivity].
  - intros d s. unfold Wait. apply (mode_Configure true).
  - intros s L.
    destruct (ISR_WDT_vect_cases s) as [[_ R] | [(E & _ & _) | [[G | [E _]] _]]];
      try lia.
    rewrite R, mode_set_SREG_I. apply mode_Configure.
Qed.

Lemma Sleep_Wait_modes_witness :
  let s := Wait 20 (Watchdog 0 boot) in
  to_u64 (_sleepOrWaitCount s + 1) < _waitTotal s
  /\ mode (ISR_WDT_vect s) = InterruptMode
  /\ Sleep [1%nat] 8 s = Some (Sleep_epilogue (Sleep_body 1 (Sleep_prologue s)))
  /\ mode (Sleep_epilogue (Sleep_body 1 (Sleep_prologue s))) = ResetMode.
Proof.
  cbv zeta.
  destruct Sleep_Wait_modes as (_ & Hret & _ & Hisr).
  assert (L : to_u64 (_sleepOrWaitCount (Wait 20 (Watchdog 0 boot)) + 1)
              < _waitTotal (Wait 20 (Watchdog 0 boot))) by reflexivity.
  assert (R : Sleep [1%nat] 8 (Wait 20 (Watchdog 0 boot))
              = Some (Sleep_epilogue (Sleep_body 1 (Sleep_prologue (Wait 20 (Watchdog 0 boot))))))
    by (vm_compute; reflexivity).
  split; [exact L | ]. split; [exact (Hisr _ L) | ]. split; [exact R | ].
  apply (Hret _ _ _ _ R).
Defined.

(** * Further properties of the controller *)

(** ** Bits *)

Lemma land_pow2_testbit (a n : Z) :
  0 <= n -> Z.land a (2 ^ n) = if Z.testbit a n then 2 ^ n else 0.
Proof.
  intros Hn. apply Z.bits_inj'. intros m Hm.
  rewrite Z.land_spec, Z.pow2_bits_eqb by exact Hn.
  destruct (Z.eqb_spec n m) as [<- | Hne].
  - destruct (Z.testbit a n); simpl.
    + rewrite Z.pow2_bits_eqb, Z.eqb_refl by exact Hn. reflexivity.
    + symmetry. apply Z.bits_0.
  - rewrite andb_false_r. destruct (Z.testbit a n).
    + rewrite Z.pow2_bits_eqb by exact Hn.
      destruct (Z.eqb_spec n m); [contradiction | reflexivity].
    + symmetry. apply Z.bits_0.
Qed.

Lemma land_BV_eqb (a n : Z) :
  0 <= n -> (Z.land a (_BV n) =? 0) = negb (Z.testbit a n).
Proof.
  intros Hn. unfold _BV. rewrite Z.shiftl_1_l, land_pow2_testbit by exact Hn.
  destruct (Z.testbit a n); simpl; [ | reflexivity].
  apply Z.eqb_neq. apply Z.pow_nonzero; [discriminate | exact Hn].
Qed.

Lemma mod16_cases (w : Z) :
  let r := w mod 16 in
  In r [0; 1; 2; 3; 4; 5; 6; 7; 8; 9; 10; 11; 12; 13; 14; 15]
  /\ Z.testbit w 3 = Z.testbit r 3 /\ Z.testbit w 2 = Z.testbit r 2
  /\ Z.testbit w 1 = Z.testbit r 1 /\ Z.testbit w 0 = Z.testbit r 0.
Proof.
  cbv zeta. split.
  - assert (H : 0 <= w mod 16 < 16) by (apply Z.mod_pos_bound; reflexivity).
    simpl. lia.
  - change 16 with (2 ^ 4).
    repeat split; symmetry; apply Z.mod_pow2_bits_low; lia.
Qed.

(** ** Hardware Programmer: the prescaler *)

Lemma prescaler_Configure (b : bool) (s : state) :
  prescaler_of (WDTCSR (Configure b s)) = _wdto s mod 16.
Proof.
  rewrite WDTCSR_Configure. unfold wdps_of.
  rewrite (land_BV_eqb (_wdto s) 3 ltac:(lia) : (Z.land (_wdto s) 8 =? 0) = _).
  rewrite (land_BV_eqb (_wdto s) 2 ltac:(lia) : (Z.land (_wdto s) 4 =? 0) = _).
  rewrite (land_BV_eqb (_wdto s) 1 ltac:(lia) : (Z.land (_wdto s) 2 =? 0) = _).
  rewrite (land_BV_eqb (_wdto s) 0 ltac:(lia) : (Z.land (_wdto s) 1 =? 0) = _).
  destruct (mod16_cases (_wdto s)) as (Hr & -> & -> & -> & ->).
  simpl in Hr.
  repeat (destruct Hr as [<- | Hr]; [destruct b; reflexivity | ]).
  contradiction.
Qed.

Lemma supported_mod16 (w : Z) : In w supported_steps -> w mod 16 = w.
Proof. intros Hw. each_step Hw; reflexivity. Qed.

(** X1.  The prescaler bits [Configure] leaves in WDTCSR spell the low four
    bits of the current step, in either mode; for a step chosen by
    [DeterminePeriod] that is the step itself. *)
Theorem Configure_prescaler_roundtrip (sleepOrWait : bool) (s : state) :
  prescaler_of (WDTCSR (Configure sleepOrWait s)) = _wdto s mod 16
  /\ (In (_wdto s) supported_steps ->
      prescaler_of (WDTCSR (Configure sleepOrWait s)) = _wdto s).
Proof.
  split; [apply prescaler_Configure | ].
  intros Hw. rewrite prescaler_Configure. apply supported_mod16. exact Hw.
Qed.

Lemma Configure_prescaler_roundtrip_witness :
  In (_wdto (Watchdog 4 boot)) supported_steps
  /\ prescaler_of (WDTCSR (Configure true (Watchdog 4 boot))) = WDTO_4S.
Proof.
  assert (Hw : In (_wdto (Watchdog 4 boot)) supported_steps)
    by (right; right; left; reflexivity).
  split; [exact Hw | ].
  apply (Configure_prescaler_roundtrip true (Watchdog 4 boot)). exact Hw.
Defined.

(** ** Period Quantizer: exact on the supported steps *)

(** X2.  A request of exactly the seconds of a supported step selects that
    step, so quantizing what the quantizer answered changes nothing. *)
Theorem DeterminePeriod_stepSeconds_roundtrip :
  (forall w, In w supported_steps -> DeterminePeriod (stepSeconds w) = w)
  /\ (forall s, DeterminePeriod (stepSeconds (DeterminePeriod s)) = DeterminePeriod s).
Proof.
  assert (R : forall w, In w supported_steps -> DeterminePeriod (stepSeconds w) = w)
    by (intros w Hw; each_step Hw; reflexivity).
  split; [exact R | ].
  intros s. apply R. apply DeterminePeriod_supported.
Qed.

Lemma DeterminePeriod_stepSeconds_roundtrip_witness :
  In WDTO_2S supported_steps /\ DeterminePeriod (stepSeconds WDTO_2S) = WDTO_2S.
Proof.
  assert (Hw : In WDTO_2S supported_steps) by (right; left; reflexivity).
  split; [exact Hw | ].
  apply (proj1 DeterminePeriod_stepSeconds_roundtrip). exact Hw.
Defined.

(** X3.  For a request of at least one second the selected step is more than
    half the request as long as the request is below 16 seconds: the
    quantizer loses less than a factor of two there, and from 16 seconds
    on it stays at 8 seconds. *)
Theorem DeterminePeriod_within_factor_two (s : Z) :
  1 <= s ->
  (s < 16 -> s < 2 * stepSeconds (DeterminePeriod s))
  /\ (16 <= s -> stepSeconds (DeterminePeriod s) = 8).
Proof.
  intros H1.
  destruct (DeterminePeriod_cases s) as [[R E] | [[R E] | [[R E] | [R E]]]];
    rewrite E; vm_compute stepSeconds; split; intros; lia.
Qed.

Lemma DeterminePeriod_within_factor_two_witness :
  1 <= 7 /\ 7 < 16 /\ 7 < 2 * stepSeconds (DeterminePeriod 7).
Proof.
  split; [lia | ]. split; [lia | ].
  apply (DeterminePeriod_within_factor_two 7); lia.
Defined.

(** ** Cycle Sequencer: what the cycle count stands for *)

(** X4.  The cycles [Sleep] runs never add up to more than the request and
    fall short of it by less than one step. *)
Theorem Sleep_ncycles_covers (wdto d : Z) :
  In wdto supported_steps -> 0 <= d ->
  0 <= Sleep_ncycles wdto d
  /\ Sleep_ncycles wdto d * stepSeconds wdto <= d
  /\ d < Sleep_ncycles wdto d * stepSeconds wdto + stepSeconds wdto.
Proof.
  intros Hw Hd. rewrite Sleep_ncycles_floor by exact Hw.
  assert (Hs : 0 < stepSeconds wdto) by (each_step Hw; reflexivity).
  pose proof (Z.div_mod d (stepSeconds wdto) ltac:(lia)) as E.
  pose proof (Z.mod_pos_bound d (stepSeconds wdto) Hs) as B.
  split; [apply Z.div_pos; lia | ]. nia.
Qed.

Lemma Sleep_ncycles_covers_witness :
  In WDTO_8S supported_steps /\ 0 <= 20
  /\ Sleep_ncycles WDTO_8S 20 * stepSeconds WDTO_8S <= 20
  /\ 20 < Sleep_ncycles WDTO_8S 20 * stepSeconds WDTO_8S + stepSeconds WDTO_8S.
Proof.
  assert (Hw : In WDTO_8S supported_steps) by (right; right; right; left; reflexivity).
  split; [exact Hw | ]. split; [lia | ].
  apply (Sleep_ncycles_covers WDTO_8S 20 Hw). lia.
Defined.

(** An [unsigned long long] survives the passage through [int] and back
    exactly when it is below [2^15] or at least [2^64 - 2^15]. *)
Lemma to_u64_to_int_iff (q : Z) :
  0 <= q < 18446744073709551616 ->
  (to_u64 (to_int q) = q <-> q < 32768 \/ 18446744073709518848 <= q).
Proof.
  intros Hq. unfold to_u64, to_int, to_signed, INT_BITS.
  replace (2 ^ (16 - 1)) with 32768 by reflexivity.
  replace (2 ^ 16) with 65536 by reflexivity.
  replace (2 ^ 64) with 18446744073709551616 by reflexivity.
  Z.div_mod_to_equations. lia.
Qed.

Lemma quotient_range (w d : Z) :
  In w supported_steps -> 0 <= d < 18446744073709551616 ->
  0 <= d / stepSeconds w < 18446744073709551616.
Proof.
  intros Hw Hd.
  assert (Hs : 1 <= stepSeconds w) by (each_step Hw; discriminate).
  split; [apply Z.div_pos; lia | ].
  apply Z.div_lt_upper_bound; nia.
Qed.

(** X5.  The target [Wait] stores is the quotient [d / stepSeconds] exactly
    when the quotient is below [2^15] or at least [2^64 - 2^15]: in
    between, the passage through [int ncycles] changes it. *)
Theorem Wait_target_exact_iff (d : Z) (s : state) :
  In (_wdto s) supported_steps -> 0 <= d < 18446744073709551616 ->
  (_waitTotal (Wait d s) = d / stepSeconds (_wdto s)
   <-> d / stepSeconds (_wdto s) < 32768
       \/ 18446744073709518848 <= d / stepSeconds (_wdto s)).
Proof.
  intros Hw Hd. rewrite Wait_target, Wait_ncycles_to_int by exact Hw.
  apply to_u64_to_int_iff. apply quotient_range; assumption.
Qed.

Lemma Wait_target_exact_iff_witness :
  In (_wdto (Watchdog 0 boot)) supported_steps
  /\ 0 <= 20 < 18446744073709551616
  /\ 20 / stepSeconds (_wdto (Watchdog 0 boot)) < 32768
  /\ _waitTotal (Wait 20 (Watchdog 0 boot)) = 20 / stepSeconds (_wdto (Watchdog 0 boot)).
Proof.
  assert (Hw : In (_wdto (Watchdog 0 boot)) supported_steps)
    by (right; right; right; left; reflexivity).
  assert (Hd : 0 <= 20 < 18446744073709551616) by lia.
  assert (Hq : 20 / stepSeconds (_wdto (Watchdog 0 boot)) < 32768) by reflexivity.
  split; [exact Hw | ]. split; [exact Hd | ]. split; [exact Hq | ].
  apply (Wait_target_exact_iff 20 (Watchdog 0 boot) Hw Hd). left. exact Hq.
Defined.

(** ** Cycle Sequencer: [Reset] in full *)

(** The first statement of [Reset] (lines 170-173): the timer is
    restarted when the watchdog is enabled or a watchdog reset is on
    record. *)
Lemma Reset_head_cases (s : state) :
  let s1 := if negb (Z.land (WDTCSR s) (_BV WDE) =? 0)
               || negb (Z.land (MCUSR s) (_BV WDRF) =? 0)
            then wdt_reset s else s in
  (Z.testbit (WDTCSR s) WDE = true \/ Z.testbit (MCUSR s) WDRF = true) /\ s1 = wdt_reset s
  \/ (Z.testbit (WDTCSR s) WDE = false /\ Z.testbit (MCUSR s) WDRF = false) /\ s1 = s.
Proof.
  cbv zeta. rewrite !land_BV_eqb, !negb_involutive by discriminate.
  destruct (Z.testbit (WDTCSR s) WDE), (Z.testbit (MCUSR s) WDRF); simpl; auto.
Qed.

Lemma Reset_period_eq (n : Z) (s : state) :
  n <> 0 ->
  Reset n s
  = Configure false
      (set_waitTotal 0
         (set_wdto (DeterminePeriod n)
            (if negb (Z.land (WDTCSR s) (_BV WDE) =? 0)
                || negb (Z.land (MCUSR s) (_BV WDRF) =? 0)
             then wdt_reset s else s))).
Proof.
  intros Hn. unfold Reset. apply Z.eqb_neq in Hn. rewrite Hn. reflexivity.
Qed.

(** X6.  [Reset(n)] with [n <> 0] selects the step of [n], clears the target
    and programs Reset Mode with that step's prescaler, in one call of
    [Configure]; the counter is not touched. *)
Theorem Reset_with_period (n : Z) (s : state) :
  n <> 0 ->
  _wdto (Reset n s) = DeterminePeriod n
  /\ _waitTotal (Reset n s) = 0
  /\ mode (Reset n s) = ResetMode
  /\ prescaler_of (WDTCSR (Reset n s)) = DeterminePeriod n
  /\ _sleepOrWaitCount (Reset n s) = _sleepOrWaitCount s
  /\ wdt_timer (Reset n s) = 0.
Proof.
  intros Hn. rewrite (Reset_period_eq n s Hn).
  set (s1 := set_waitTotal 0 _).
  assert (W : _wdto s1 = DeterminePeriod n) by reflexivity.
  split; [exact W | ]. split; [reflexivity | ].
  split; [apply mode_Configure | ].
  split.
  - rewrite prescaler_Configure, W. apply supported_mod16.
    apply DeterminePeriod_supported.
  - split; [ | reflexivity].
    subst s1. destruct (_ || _); reflexivity.
Qed.

Lemma Reset_with_period_witness :
  3 <> 0
  /\ _wdto (Reset 3 (Wait 20 (Watchdog 0 boot))) = WDTO_2S
  /\ _waitTotal (Reset 3 (Wait 20 (Watchdog 0 boot))) = 0
  /\ mode (Reset 3 (Wait 20 (Watchdog 0 boot))) = ResetMode.
Proof.
  assert (Hn : 3 <> 0) by discriminate.
  destruct (Reset_with_period 3 (Wait 20 (Watchdog 0 boot)) Hn) as (W & T & M & _).
  split; [exact Hn | ]. split; [exact W | ]. split; [exact T | exact M].
Defined.

(** After any [Reset] the target is zero. *)
Lemma Reset_target_zero (p : Z) (s : state) : _waitTotal (Reset p s) = 0.
Proof.
  destruct (Z.eq_dec p 0) as [-> | Hp].
  - destruct (Reset_0_cases s) as [[_ E] | [Z0 E]]; rewrite E; [reflexivity | ].
    destruct (_ || _); exact Z0.
  - rewrite (Reset_period_eq p s Hp). reflexivity.
Qed.

(** The shapes a [Reset] can take: the timer restart of its head alone,
    or followed by one [Configure()]. *)
Lemma Reset_shapes (p : Z) (s : state) :
  let s1 := if negb (Z.land (WDTCSR s) (_BV WDE) =? 0)
               || negb (Z.land (MCUSR s) (_BV WDRF) =? 0)
            then wdt_reset s else s in
  (p = 0 /\ _waitTotal s = 0 /\ Reset p s = s1)
  \/ exists s2, Reset p s = Configure false s2 /\ trace s2 = trace s1.
Proof.
  cbv zeta. destruct (Z.eq_dec p 0) as [-> | Hp].
  - destruct (Reset_0_cases s) as [[_ E] | [Z0 E]].
    + right. eexists. split; [exact E | reflexivity].
    + left. auto.
  - right. eexists. split; [apply (Reset_period_eq p s Hp) | reflexivity].
Qed.

Lemma Configure_frame_log (b : bool) (s : state) :
  exists t, trace (Configure b s) = t ++ trace s.
Proof.
  exists [EvWdr;
          EvWrite RegWDTCSR (to_u8 (wdps_of (_wdto s) b)) false;
          EvWrite RegWDTCSR (to_u8 (Z.lor (_BV WDCE) (_BV WDE))) false;
          EvWrite RegMCUSR (to_u8 (Z.land (MCUSR s) (Z.lnot (_BV WDRF)))) false].
  reflexivity.
Qed.

(** X7.  Whenever the watchdog is enabled (WDE set), or a watchdog reset is
    on record in MCUSR, [Reset] restarts the watchdog timer, whatever
    its argument: the [wdr] is in the log and the timer is at zero. *)
Theorem Reset_restarts_timer (p : Z) (s : state) :
  Z.testbit (WDTCSR s) WDE = true \/ Z.testbit (MCUSR s) WDRF = true ->
  wdt_timer (Reset p s) = 0
  /\ exists t, trace (Reset p s) = t ++ EvWdr :: trace s.
Proof.
  intros H.
  destruct (Reset_head_cases s) as [[_ E1] | [[F1 F2] _]];
    [ | destruct H as [H | H]; congruence].
  destruct (Reset_shapes p s) as [(_ & _ & E) | (s2 & E & T)];
    rewrite E; cbv zeta in E1; rewrite E1 in *.
  - split; [reflexivity | ]. exists []. reflexivity.
  - split; [reflexivity | ].
    destruct (Configure_frame_log false s2) as [t Ht].
    exists t. rewrite Ht, T. reflexivity.
Qed.

Lemma Reset_restarts_timer_witness :
  let s := Reset 0 (Watchdog 0 boot) in
  Z.testbit (WDTCSR s) WDE = true
  /\ wdt_timer (Reset 0 s) = 0
  /\ exists t, trace (Reset 0 s) = t ++ EvWdr :: trace s.
Proof.
  cbv zeta.
  assert (H : Z.testbit (WDTCSR (Reset 0 (Watchdog 0 boot))) WDE = true) by reflexivity.
  split; [exact H | ].
  apply (Reset_restarts_timer 0 (Reset 0 (Watchdog 0 boot))). left. exact H.
Defined.

(** X8.  [Reset()] on a stopped watchdog with no watchdog reset on record and
    no target pending does nothing at all. *)
Theorem Reset_noop_when_stopped (s : state) :
  Z.testbit (WDTCSR s) WDE = false ->
  Z.testbit (MCUSR s) WDRF = false ->
  _waitTotal s = 0 ->
  Reset 0 s = s.
Proof.
  intros Hw Hm Ht.
  destruct (Reset_0_cases s) as [[N _] | [_ E]]; [contradiction | ].
  rewrite E.
  destruct (Reset_head_cases s) as [[[H | H] _] | [_ E1]];
    [congruence | congruence | exact E1].
Qed.

Lemma Reset_noop_when_stopped_witness :
  let s := set_waitTotal 0 (Watchdog 0 boot) in
  Z.testbit (WDTCSR s) WDE = false
  /\ Z.testbit (MCUSR s) WDRF = false
  /\ _waitTotal s = 0
  /\ Reset 0 s = s.
Proof.
  cbv zeta.
  split; [reflexivity | ]. split; [reflexivity | ]. split; [reflexivity | ].
  apply (Reset_noop_when_stopped (set_waitTotal 0 (Watchdog 0 boot))); reflexivity.
Defined.

(** X9.  A [Reset()] that follows any [Reset] changes no register and no
    global: it is the state it found, or that state with the timer
    restarted. *)
Theorem Reset_after_Reset (p : Z) (s : state) :
  Reset 0 (Reset p s) = Reset p s
  \/ Reset 0 (Reset p s) = wdt_reset (Reset p s).
Proof.
  destruct (Reset_0_cases (Reset p s)) as [[N _] | [_ E]].
  - exfalso. apply N. apply Reset_target_zero.
  - rewrite E. destruct (_ || _); auto.
Qed.

(** X10.  [Reset()] supersedes a [Wait] in flight: however often the handler
    has fired since a [Wait] with a non-zero target, [Reset()] clears
    the target and programs Reset Mode. *)
Theorem Reset_supersedes_Wait (d : Z) (k : nat) (s : state) :
  _waitTotal (Wait d s) <> 0 ->
  _waitTotal (Reset 0 (fire k (Wait d s))) = 0
  /\ mode (Reset 0 (fire k (Wait d s))) = ResetMode.
Proof.
  intros H. split; [apply Reset_target_zero | ].
  destruct (fire_globals k (Wait d s)) as [T _].
  destruct (Reset_0_cases (fire k (Wait d s))) as [[_ E] | [Z0 _]].
  - rewrite E. apply mode_Configure.
  - rewrite T in Z0. contradiction.
Qed.

Lemma Reset_supersedes_Wait_witness :
  _waitTotal (Wait 20 (Watchdog 0 boot)) <> 0
  /\ _waitTotal (Reset 0 (fire 1 (Wait 20 (Watchdog 0 boot)))) = 0
  /\ mode (Reset 0 (fire 1 (Wait 20 (Watchdog 0 boot)))) = ResetMode.
Proof.
  assert (H : _waitTotal (Wait 20 (Watchdog 0 boot)) <> 0) by discriminate.
  split; [exact H | ].
  apply (Reset_supersedes_Wait 20 1 (Watchdog 0 boot) H).
Defined.

(** ** The constructor *)

(** X11.  The constructor stops the watchdog and stores a supported step; the
    first [Reset()] after it arms the watchdog in Reset Mode with that
    step when the target is non-zero (as at program start), and leaves
    it stopped when the target is zero and no watchdog reset is on
    record. *)
Theorem Watchdog_then_Reset (p : Z) (s : state) :
  mode (Watchdog p s) = Stopped
  /\ In (_wdto (Watchdog p s)) supported_steps
  /\ (_waitTotal s <> 0 ->
      mode (Reset 0 (Watchdog p s)) = ResetMode
      /\ prescaler_of (WDTCSR (Reset 0 (Watchdog p s))) = DeterminePeriod p)
  /\ (_waitTotal s = 0 -> Z.testbit (MCUSR s) WDRF = false ->
      Reset 0 (Watchdog p s) = Watchdog p s).
Proof.
  split; [reflexivity | ]. split; [apply DeterminePeriod_supported | ]. split.
  - intros N.
    destruct (Reset_0_cases (Watchdog p s)) as [[_ E] | [Z0 _]]; [ | contradiction].
    rewrite E. split; [apply mode_Configure | ].
    rewrite prescaler_Configure.
    replace (_wdto _) with (DeterminePeriod p)
      by (destruct (_ || _); reflexivity).
    apply supported_mod16. apply DeterminePeriod_supported.
  - intros Z0 F.
    destruct (Reset_0_cases (Watchdog p s)) as [[N _] | [_ E]]; [contradiction | ].
    rewrite E.
    destruct (Reset_head_cases (Watchdog p s)) as [[[H | H] _] | [_ E1]];
      [discriminate H | | exact E1].
    change (MCUSR (Watchdog p s)) with (MCUSR s) in H. congruence.
Qed.

Lemma Watchdog_then_Reset_witness :
  _waitTotal boot <> 0
  /\ mode (Reset 0 (Watchdog 2 boot)) = ResetMode
  /\ prescaler_of (WDTCSR (Reset 0 (Watchdog 2 boot))) = DeterminePeriod 2
  /\ _waitTotal (Reset 0 boot) = 0
  /\ Z.testbit (MCUSR (Reset 0 boot)) WDRF = false
  /\ Reset 0 (Watchdog 2 (Reset 0 boot)) = Watchdog 2 (Reset 0 boot).
Proof.
  assert (N : _waitTotal boot <> 0) by discriminate.
  assert (Z0 : _waitTotal (Reset 0 boot) = 0) by reflexivity.
  assert (F : Z.testbit (MCUSR (Reset 0 boot)) WDRF = false) by reflexivity.
  destruct (Watchdog_then_Reset 2 boot) as (_ & _ & A & _).
  destruct (Watchdog_then_Reset 2 (Reset 0 boot)) as (_ & _ & _ & B).
  destruct (A N) as [M P].
  split; [exact N | ]. split; [exact M | ]. split; [exact P | ].
  split; [exact Z0 | ]. split; [exact F | exact (B Z0 F)].
Defined.

(** ** A [Wait] sequence from arming to completion *)

Lemma fire_succ (k : nat) (s : state) : fire (S k) s = WDT_expiry (fire k s).
Proof.
  revert s. induction k as [ | k IH]; intros s; [reflexivity | ].
  change (fire (S (S k)) s) with (fire (S k) (WDT_expiry s)).
  rewrite IH. reflexivity.
Qed.

(** An expiry in terms of the counter it has just incremented: what the
    handler does after the time-out. *)
Lemma WDT_expiry_cases (s : state) :
  let c := to_u64 (_sleepOrWaitCount s + 1) in
  c < _waitTotal s /\ mode (WDT_expiry s) = InterruptMode
  \/ c = _waitTotal s /\ _waitTotal s <> 0 /\ mode (WDT_expiry s) = ResetMode
  \/ (_waitTotal s < c \/ c = _waitTotal s /\ _waitTotal s = 0)
     /\ WDTCSR (WDT_expiry s) = WDTCSR (wdt_timeout s)
     /\ trace (WDT_expiry s) = trace s.
Proof.
  cbv zeta. unfold WDT_expiry.
  destruct (wdt_timeout_frame s) as (C & W & _ & T & _).
  destruct (ISR_WDT_vect_cases (wdt_timeout s)) as [[L R] | [(E & N & R) | [X R]]];
    cbv zeta in *; rewrite C, W in *; rewrite R.
  - left. split; [exact L | ]. rewrite mode_set_SREG_I. apply mode_Configure.
  - right; left. split; [exact E | ]. split; [exact N | ].
    rewrite mode_set_SREG_I. apply mode_Configure.
  - right; right. split; [exact X | ]. split; [reflexivity | exact T].
Qed.

(** From a state with the counter at 0 the handler counts one per
    firing, as long as the counter does not wrap. *)
Lemma fire_counts (s : state) :
  _sleepOrWaitCount s = 0 ->
  forall k : nat, Z.of_nat k < 2 ^ 64 -> _sleepOrWaitCount (fire k s) = Z.of_nat k.
Proof.
  intros C k. induction k as [ | k IH]; intros Hk; [exact C | ].
  rewrite fire_succ.
  destruct (WDT_expiry_globals (fire k s)) as (E & _).
  rewrite E, IH by lia. rewrite to_u64_small; lia.
Qed.

(** With the target at [n], the firing that brings the counter to
    [k + 1 <= n] leaves Interrupt Mode armed below [n] and programs
    Reset Mode at [n]. *)
Lemma countdown_mode (n : Z) (s : state) (k : nat) :
  _sleepOrWaitCount s = 0 -> _waitTotal s = n -> n < 2 ^ 64 ->
  Z.of_nat (S k) <= n ->
  mode (fire (S k) s) = if Z.of_nat (S k) <? n then InterruptMode else ResetMode.
Proof.
  intros C T Hn Hk. rewrite fire_succ.
  destruct (fire_globals k s) as [Tk _]. rewrite T in Tk.
  assert (Cs : to_u64 (_sleepOrWaitCount (fire k s) + 1) = Z.of_nat (S k))
    by (rewrite (fire_counts s C k) by lia; rewrite to_u64_small; lia).
  destruct (WDT_expiry_cases (fire k s)) as [[L R] | [(E & N & R) | [X _]]];
    cbv zeta in *; rewrite Cs, Tk in *.
  - rewrite R. destruct (Z.ltb_spec (Z.of_nat (S k)) n); [reflexivity | lia].
  - rewrite R. destruct (Z.ltb_spec (Z.of_nat (S k)) n); [lia | reflexivity].
  - lia.
Qed.

(** X12.  A [Wait(d)] of [n = d / stepSeconds] cycles, [1 <= n < 2^15]: the
    call arms Interrupt Mode; each of the first [n - 1] firings of the
    handler re-arms it; the [n]-th firing programs Reset Mode with the
    counter at [n]; the target is [n] throughout. *)
Theorem Wait_sequence (d : Z) (s : state) :
  In (_wdto s) supported_steps ->
  1 <= d / stepSeconds (_wdto s) < 32768 ->
  let n := d / stepSeconds (_wdto s) in
  mode (Wait d s) = InterruptMode
  /\ (forall k : nat,
        _waitTotal (fire k (Wait d s)) = n
        /\ (Z.of_nat k <= n -> _sleepOrWaitCount (fire k (Wait d s)) = Z.of_nat k)
        /\ (Z.of_nat k < n -> mode (fire k (Wait d s)) = InterruptMode))
  /\ mode (fire (Z.to_nat n) (Wait d s)) = ResetMode.
Proof.
  intros Hw Hq n.
  assert (T : _waitTotal (Wait d s) = n)
    by (apply Wait_target_in_int_range; [exact Hw | change (2 ^ 15) with 32768; lia]).
  assert (C : _sleepOrWaitCount (Wait d s) = 0) by reflexivity.
  assert (M : mode (Wait d s) = InterruptMode) by (unfold Wait; apply mode_Configure).
  assert (B : n < 2 ^ 64)
    by (assert (32768 < 2 ^ 64) by reflexivity; subst n; lia).
  split; [exact M | ]. split.
  - intros k. split; [ | split].
    + destruct (fire_globals k (Wait d s)) as [Tk _]. rewrite Tk. exact T.
    + intros Hk. apply fire_counts; [exact C | lia].
    + intros Hk. destruct k as [ | k]; [exact M | ].
      rewrite (countdown_mode n (Wait d s) k C T B) by lia.
      destruct (Z.ltb_spec (Z.of_nat (S k)) n); [reflexivity | lia].
  - assert (E : Z.to_nat n = S (Z.to_nat (n - 1)))
      by (subst n; lia).
    rewrite E, (countdown_mode n (Wait d s) (Z.to_nat (n - 1)) C T B) by (subst n; lia).
    destruct (Z.ltb_spec (Z.of_nat (S (Z.to_nat (n - 1)))) n);
      [subst n; lia | reflexivity].
Qed.

Lemma Wait_sequence_witness :
  let s := Watchdog 0 boot in
  In (_wdto s) supported_steps
  /\ 1 <= 20 / stepSeconds (_wdto s) < 32768
  /\ mode (Wait 20 s) = InterruptMode
  /\ mode (fire 1 (Wait 20 s)) = InterruptMode
  /\ mode (fire (Z.to_nat (20 / stepSeconds (_wdto s))) (Wait 20 s)) = ResetMode.
Proof.
  cbv zeta.
  assert (Hw : In (_wdto (Watchdog 0 boot)) supported_steps)
    by (right; right; right; left; reflexivity).
  assert (Hq : 1 <= 20 / stepSeconds (_wdto (Watchdog 0 boot)) < 32768)
    by (split; [discriminate | reflexivity]).
  destruct (Wait_sequence 20 (Watchdog 0 boot) Hw Hq) as (M & F & R).
  split; [exact Hw | ]. split; [exact Hq | ]. split; [exact M | ].
  split; [ | exact R].
  apply (F 1%nat). reflexivity.
Defined.

(** With the target at zero the handler writes no register, so once the
    first time-out has cleared WDIE nothing sets it again. *)
Lemma fire_zero_target (s : state) :
  _waitTotal s = 0 ->
  forall k : nat,
    trace (fire k s) = trace s
    /\ (mode s = InterruptMode -> (0 < k)%nat -> mode (fire k s) = ResetMode).
Proof.
  intros T k. induction k as [ | k [IHt IHm]].
  - split; [reflexivity | intros _ H; inversion H].
  - rewrite fire_succ.
    destruct (fire_globals k s) as [Tk _]. rewrite T in Tk.
    assert (B : 0 <= to_u64 (_sleepOrWaitCount (fire k s) + 1))
      by (unfold to_u64; apply Z.mod_pos_bound; reflexivity).
    destruct (WDT_expiry_cases (fire k s)) as [[L _] | [(_ & N & _) | (_ & R & Tr)]];
      [cbv zeta in L; lia | contradiction | ].
    split; [rewrite Tr; exact IHt | ].
    intros M _. unfold mode. rewrite R. fold (mode (wdt_timeout (fire k s))).
    destruct k as [ | k].
    + apply mode_timeout_of_Interrupt. exact M.
    + apply mode_timeout_of_Reset. apply IHm; [exact M | lia].
Qed.

(** X13.  A [Wait] shorter than one step stores the target 0 and arms
    Interrupt Mode; the handler then never completes the sequence and
    never re-arms: it writes no register however often the watchdog
    expires, so from the first time-out on, which clears WDIE, the
    watchdog is left in Reset Mode. *)
Theorem Wait_below_one_step (d : Z) (s : state) :
  In (_wdto s) supported_steps ->
  0 <= d < stepSeconds (_wdto s) ->
  _waitTotal (Wait d s) = 0
  /\ mode (Wait d s) = InterruptMode
  /\ forall k : nat,
       trace (fire k (Wait d s)) = trace (Wait d s)
       /\ ((0 < k)%nat -> mode (fire k (Wait d s)) = ResetMode).
Proof.
  intros Hw Hd.
  assert (Q : d / stepSeconds (_wdto s) = 0) by (apply Z.div_small; exact Hd).
  assert (T : _waitTotal (Wait d s) = 0).
  { rewrite (Wait_target_in_int_range d s Hw); [exact Q | ].
    rewrite Q. split; [lia | reflexivity]. }
  assert (M : mode (Wait d s) = InterruptMode) by (unfold Wait; apply mode_Configure).
  split; [exact T | ]. split; [exact M | ].
  intros k. destruct (fire_zero_target (Wait d s) T k) as [Tr Mk].
  split; [exact Tr | exact (Mk M)].
Qed.

Lemma Wait_below_one_step_witness :
  let s := Watchdog 0 boot in
  In (_wdto s) supported_steps
  /\ 0 <= 3 < stepSeconds (_wdto s)
  /\ _waitTotal (Wait 3 s) = 0
  /\ trace (fire 1 (Wait 3 s)) = trace (Wait 3 s)
  /\ (0 < 1)%nat
  /\ mode (fire 1 (Wait 3 s)) = ResetMode.
Proof.
  cbv zeta.
  assert (Hw : In (_wdto (Watchdog 0 boot)) supported_steps)
    by (right; right; right; left; reflexivity).
  assert (Hd : 0 <= 3 < stepSeconds (_wdto (Watchdog 0 boot)))
    by (split; [discriminate | reflexivity]).
  assert (Hk : (0 < 1)%nat) by constructor.
  destruct (Wait_below_one_step 3 (Watchdog 0 boot) Hw Hd) as (T & _ & F).
  destruct (F 1%nat) as [Tr Mk].
  split; [exact Hw | ]. split; [exact Hd | ]. split; [exact T | ].
  split; [exact Tr | ]. split; [exact Hk | exact (Mk Hk)].
Defined.

(** ** [Sleep] at its edges *)

(** A wake without a firing of the handler costs a nap and leaves the
    counter where it was. *)
Lemma Sleep_body_zero (s : state) :
  _sleepOrWaitCount (Sleep_body 0 s) = _sleepOrWaitCount s
  /\ naps (trace (Sleep_body 0 s)) = S (naps (trace s)).
Proof. split; reflexivity. Qed.

(** The loop under wakes of at most one firing each: it returns, with
    the counter exactly at [ncycles], as soon as the firings add up to
    the cycles still missing, and it does not return when they do not. *)
Lemma Sleep_loop_wakes (wakes : list nat) :
  Forall (fun k => (k <= 1)%nat) wakes ->
  forall (ncycles : Z) (s : state),
    0 <= _sleepOrWaitCount s <= ncycles -> ncycles < 2 ^ 64 ->
    (ncycles - _sleepOrWaitCount s <= Z.of_nat (list_sum wakes) ->
     exists s' used,
       Sleep_loop wakes ncycles s = Some s'
       /\ _sleepOrWaitCount s' = ncycles
       /\ naps (trace s') = (naps (trace s) + used)%nat
       /\ (Z.to_nat (ncycles - _sleepOrWaitCount s) <= used <= length wakes)%nat)
    /\ (Z.of_nat (list_sum wakes) < ncycles - _sleepOrWaitCount s ->
        Sleep_loop wakes ncycles s = None).
Proof.
  induction 1 as [ | k wakes Hk Hall IH]; intros ncycles s Hc Hn.
  - simpl. split.
    + intros Hs. assert (E : _sleepOrWaitCount s = ncycles) by lia.
      rewrite E, Z.ltb_irrefl. exists s, 0%nat.
      rewrite Z.sub_diag, Nat.add_0_r. simpl. auto.
    + intros Hs. destruct (Z.ltb_spec (_sleepOrWaitCount s) ncycles); [reflexivity | lia].
  - cbn [Sleep_loop list_sum fold_right length].
    change (fold_right Nat.add 0%nat wakes) with (list_sum wakes).
    destruct (Z.ltb_spec (_sleepOrWaitCount s) ncycles) as [L | L].
    + assert (Hb : _sleepOrWaitCount (Sleep_body k s) = _sleepOrWaitCount s + Z.of_nat k
                   /\ naps (trace (Sleep_body k s)) = S (naps (trace s))).
      { destruct k as [ | [ | k]]; [ | | lia].
        - destruct (Sleep_body_zero s) as [C N]. rewrite C, N. split; [ring | reflexivity].
        - destruct (Sleep_body_one s) as [C N]. rewrite C, N.
          split; [apply to_u64_small; lia | reflexivity]. }
      destruct Hb as [C N].
      destruct (IH ncycles (Sleep_body k s)) as [Ret Blk]; [lia | exact Hn | ].
      split.
      * intros Hs. destruct Ret as (s' & used & R & Cs & Ns & Hu); [lia | ].
        exists s', (S used). split; [exact R | ]. split; [exact Cs | ].
        split; [rewrite Ns, N; lia | lia].
      * intros Hs. apply Blk. lia.
    + split.
      * intros _. assert (E : _sleepOrWaitCount s = ncycles) by lia.
        exists s, 0%nat. rewrite E, Z.sub_diag, Nat.add_0_r. simpl.
        repeat split; lia.
      * intros Hs. lia.
Qed.

(** X14.  [Sleep] under wakes that are not all firings of the handler (each
    wake is one firing or none): the call returns as soon as the firings
    add up to [ncycles], with the counter exactly at [ncycles] and at
    least [ncycles] naps taken; as long as the firings fall short of
    [ncycles] it does not return. *)
Theorem Sleep_spurious_wakes (wakes : list nat) (d : Z) (s : state) :
  0 <= d < 2 ^ 64 ->
  In (_wdto s) supported_steps ->
  Forall (fun k => (k <= 1)%nat) wakes ->
  let ncycles := d / stepSeconds (_wdto s) in
  (ncycles <= Z.of_nat (list_sum wakes) ->
   exists s' used,
     Sleep wakes d s = Some s'
     /\ _sleepOrWaitCount s' = ncycles
     /\ naps (trace s') = (naps (trace s) + used)%nat
     /\ (Z.to_nat ncycles <= used <= length wakes)%nat)
  /\ (Z.of_nat (list_sum wakes) < ncycles -> Sleep wakes d s = None).
Proof.
  intros Hd Hw Hall ncycles.
  assert (Hq : 0 <= ncycles <= d).
  { subst ncycles. each_step Hw; vm_compute stepSeconds; split;
      solve [apply Z.div_pos; lia | apply Z.div_le_upper_bound; lia]. }
  destruct (Sleep_prologue_facts s) as (C0 & _ & _ & N0 & _).
  destruct (Sleep_loop_wakes wakes Hall ncycles (Sleep_prologue s)) as [Ret Blk];
    rewrite ?C0; try lia.
  rewrite C0, Z.sub_0_r in Ret, Blk.
  unfold Sleep. rewrite Sleep_ncycles_floor by exact Hw. fold ncycles.
  split.
  - intros Hs. destruct (Ret Hs) as (s1 & used & R & Cs & Ns & Hu).
    rewrite R. exists (Sleep_epilogue s1), used.
    split; [reflexivity | ]. split; [exact Cs | ].
    split; [ | exact Hu]. rewrite N0 in Ns. exact Ns.
  - intros Hs. rewrite (Blk Hs). reflexivity.
Qed.

Lemma Sleep_spurious_wakes_witness :
  let s := Reset 0 (Watchdog 0 boot) in
  let wakes := [1%nat; 0%nat; 1%nat] in
  0 <= 16 < 2 ^ 64
  /\ In (_wdto s) supported_steps
  /\ Forall (fun k => (k <= 1)%nat) wakes
  /\ 16 / stepSeconds (_wdto s) <= Z.of_nat (list_sum wakes)
  /\ (exists s' used,
        Sleep wakes 16 s = Some s'
        /\ _sleepOrWaitCount s' = 16 / stepSeconds (_wdto s)
        /\ naps (trace s') = (naps (trace s) + used)%nat
        /\ (Z.to_nat (16 / stepSeconds (_wdto s)) <= used <= length wakes)%nat)
  /\ Z.of_nat (list_sum [1%nat; 0%nat]) < 16 / stepSeconds (_wdto s)
  /\ Sleep [1%nat; 0%nat] 16 s = None.
Proof.
  cbv zeta.
  assert (Hd : 0 <= 16 < 2 ^ 64) by (split; [discriminate | reflexivity]).
  assert (Hw : In (_wdto (Reset 0 (Watchdog 0 boot))) supported_steps)
    by (right; right; right; left; reflexivity).
  assert (Ha : Forall (fun k => (k <= 1)%nat) [1%nat; 0%nat; 1%nat])
    by (repeat constructor).
  assert (Hb : Forall (fun k => (k <= 1)%nat) [1%nat; 0%nat])
    by (repeat constructor).
  assert (Hs : 16 / stepSeconds (_wdto (Reset 0 (Watchdog 0 boot)))
               <= Z.of_nat (list_sum [1%nat; 0%nat; 1%nat])) by discriminate.
  assert (Hl : Z.of_nat (list_sum [1%nat; 0%nat])
               < 16 / stepSeconds (_wdto (Reset 0 (Watchdog 0 boot)))) by reflexivity.
  do 3 (split; [assumption | ]). split; [exact Hs | ].
  split; [exact (proj1 (Sleep_spurious_wakes _ 16 _ Hd Hw Ha) Hs) | ].
  split; [exact Hl | ].
  exact (proj2 (Sleep_spurious_wakes _ 16 _ Hd Hw Hb) Hl).
Defined.

(** X15.  A [Sleep] shorter than one step does not sleep: whatever the wakes,
    it returns at once with no nap taken and the counter at 0, after
    programming the watchdog twice (Interrupt Mode, then Reset Mode). *)
Theorem Sleep_below_one_step (wakes : list nat) (d : Z) (s : state) :
  In (_wdto s) supported_steps ->
  0 <= d < stepSeconds (_wdto s) ->
  Sleep wakes d s = Some (Sleep_epilogue (Sleep_prologue s))
  /\ naps (trace (Sleep_epilogue (Sleep_prologue s))) = naps (trace s)
  /\ _sleepOrWaitCount (Sleep_epilogue (Sleep_prologue s)) = 0
  /\ mode (Sleep_epilogue (Sleep_prologue s)) = ResetMode.
Proof.
  intros Hw Hd. unfold Sleep.
  rewrite Sleep_ncycles_floor, Z.div_small by assumption.
  split; [destruct wakes; reflexivity | ].
  split; [reflexivity | ]. split; [reflexivity | ].
  unfold Sleep_epilogue. apply mode_Configure.
Qed.

Lemma Sleep_below_one_step_witness :
  let s := Watchdog 0 boot in
  In (_wdto s) supported_steps
  /\ 0 <= 7 < stepSeconds (_wdto s)
  /\ Sleep [] 7 s = Some (Sleep_epilogue (Sleep_prologue s)).
Proof.
  cbv zeta.
  assert (Hw : In (_wdto (Watchdog 0 boot)) supported_steps)
    by (right; right; right; left; reflexivity).
  assert (Hd : 0 <= 7 < stepSeconds (_wdto (Watchdog 0 boot)))
    by (split; [discriminate | reflexivity]).
  split; [exact Hw | ]. split; [exact Hd | ].
  apply (Sleep_below_one_step [] 7 (Watchdog 0 boot) Hw Hd).
Defined.

Lemma Sleep_loop_exit (wakes : list nat) (ncycles : Z) :
  forall s s', Sleep_loop wakes ncycles s = Some s' ->
               ncycles <= _sleepOrWaitCount s'.
Proof.
  induction wakes as [ | k wakes IH]; intros s s'; simpl;
    destruct (Z.ltb_spec (_sleepOrWaitCount s) ncycles) as [L | L]; intros H.
  - discriminate.
  - injection H as <-. exact L.
  - apply (IH _ _ H).
  - injection H as <-. exact L.
Qed.

(** X16.  [Sleep] never returns early: whatever wakes the CPU and however
    often the handler fires per wake, a call that returns does so with
    the counter at [ncycles] or beyond, and with no wake at all a call
    of at least one cycle does not return. *)
Theorem Sleep_never_returns_early (wakes : list nat) (d : Z) (s s' : state) :
  Sleep wakes d s = Some s' ->
  Sleep_ncycles (_wdto s) d <= _sleepOrWaitCount s'
  /\ (0 < Sleep_ncycles (_wdto s) d -> wakes <> []).
Proof.
  unfold Sleep. intros H.
  destruct (Sleep_loop wakes (Sleep_ncycles (_wdto s) d) (Sleep_prologue s))
    as [s1 | ] eqn:E; [ | discriminate].
  injection H as <-. split.
  - apply (Sleep_loop_exit _ _ _ _ E).
  - intros Hn ->. simpl in E.
    destruct (Z.ltb_spec 0 (Sleep_ncycles (_wdto s) d)); [discriminate | lia].
Qed.

Lemma Sleep_never_returns_early_witness :
  let s := Watchdog 0 boot in
  Sleep [2%nat; 1%nat] 24 s
  = Some (Sleep_epilogue (Sleep_body 1 (Sleep_body 2 (Sleep_prologue s))))
  /\ Sleep_ncycles (_wdto s) 24
     <= _sleepOrWaitCount (Sleep_epilogue (Sleep_body 1 (Sleep_body 2 (Sleep_prologue s)))).
Proof.
  cbv zeta.
  assert (R : Sleep [2%nat; 1%nat] 24 (Watchdog 0 boot)
              = Some (Sleep_epilogue (Sleep_body 1 (Sleep_body 2 (Sleep_prologue (Watchdog 0 boot))))))
    by (vm_compute; reflexivity).
  split; [exact R | ].
  apply (Sleep_never_returns_early _ _ _ _ R).
Defined.

(** ** What [Sleep] does to the power and sleep-mode registers *)

Lemma ISR_WDT_vect_power (s : state) :
  PRR (ISR_WDT_vect s) = PRR s /\ SMCR (ISR_WDT_vect s) = SMCR s.
Proof.
  destruct (ISR_WDT_vect_cases s) as [[_ E] | [(_ & _ & E) | [_ E]]];
    rewrite E; split; reflexivity.
Qed.

Lemma fire_power (k : nat) (s : state) :
  PRR (fire k s) = PRR s /\ SMCR (fire k s) = SMCR s.
Proof.
  induction k as [ | k [IHP IHS]]; [split; reflexivity | ].
  rewrite fire_succ. unfold WDT_expiry.
  destruct (ISR_WDT_vect_power (wdt_timeout (fire k s))) as [P S'].
  destruct (wdt_timeout_frame (fire k s)) as (_ & _ & _ & _ & P' & S'').
  rewrite P, S', P', S'', IHP, IHS. split; reflexivity.
Qed.

Lemma Sleep_body_PRR (k : nat) (s : state) : PRR (Sleep_body k s) = PRR s.
Proof.
  unfold Sleep_body, sleep_mode, sleep_cpu.
  change (PRR (fire k (log EvSleepCpu (sleep_enable s))) = PRR s).
  rewrite (proj1 (fire_power k _)). reflexivity.
Qed.

Lemma Sleep_body_SMCR (k : nat) (s : state) :
  SMCR (Sleep_body k s)
  = Z.land (Z.land (Z.lor (SMCR s) 1) 254) 254.
Proof.
  unfold Sleep_body, sleep_mode, sleep_cpu.
  change (Z.land (Z.land (SMCR (fire k (log EvSleepCpu (sleep_enable s)))) 254) 254
          = Z.land (Z.land (Z.lor (SMCR s) 1) 254) 254).
  rewrite (proj2 (fire_power k _)). reflexivity.
Qed.

Lemma sleep_select_kept (x : Z) :
  Z.land (Z.land (Z.land (Z.lor x 1) 254) 254) SLEEP_MODE_MASK
  = Z.land x SLEEP_MODE_MASK.
Proof.
  rewrite <- !Z.land_assoc. change (Z.land 254 (Z.land 254 SLEEP_MODE_MASK)) with 14.
  rewrite Z.land_lor_distr_l. change (Z.land 1 14) with 0.
  apply Z.lor_0_r.
Qed.

Lemma Sleep_loop_power (wakes : list nat) (ncycles : Z) :
  forall s s', Sleep_loop wakes ncycles s = Some s' ->
               PRR s' = PRR s
               /\ Z.land (SMCR s') SLEEP_MODE_MASK = Z.land (SMCR s) SLEEP_MODE_MASK.
Proof.
  induction wakes as [ | k wakes IH]; intros s s'; simpl;
    destruct (_sleepOrWaitCount s <? ncycles); intros H;
    try discriminate; try (injection H as <-; split; reflexivity).
  destruct (IH _ _ H) as [P S']. rewrite P, S', Sleep_body_PRR, Sleep_body_SMCR.
  split; [reflexivity | apply sleep_select_kept].
Qed.

(** X17.  [Sleep] does not give the caller's power settings back: a call that
    returns leaves every peripheral of the power-reduction mask switched
    on, also those that were off before the call, and leaves power-down
    selected as the sleep mode. *)
Theorem Sleep_power_state (wakes : list nat) (d : Z) (s s' : state) :
  Sleep wakes d s = Some s' ->
  Z.land (PRR s') PRR_ALL = 0
  /\ Z.land (SMCR s') SLEEP_MODE_MASK = SLEEP_MODE_PWR_DOWN.
Proof.
  unfold Sleep. intros H.
  destruct (Sleep_loop wakes (Sleep_ncycles (_wdto s) d) (Sleep_prologue s))
    as [s1 | ] eqn:E; [ | discriminate].
  injection H as <-.
  destruct (Sleep_loop_power _ _ _ _ E) as [P S'].
  split.
  - change (Z.land (Z.land (PRR s1) 16) PRR_ALL = 0).
    rewrite <- Z.land_assoc. change (Z.land 16 PRR_ALL) with 0.
    apply Z.land_0_r.
  - change (Z.land (SMCR s1) SLEEP_MODE_MASK = SLEEP_MODE_PWR_DOWN).
    rewrite S'.
    change (Z.land (Z.lor (Z.land (SMCR s) 241) 4) 14 = 4).
    rewrite Z.land_lor_distr_l, <- Z.land_assoc.
    change (Z.land 241 14) with 0. rewrite Z.land_0_r. reflexivity.
Qed.

Lemma Sleep_power_state_witness :
  let s := set_PRR 1 (Watchdog 0 boot) in
  Sleep [1%nat] 8 s = Some (Sleep_epilogue (Sleep_body 1 (Sleep_prologue s)))
  /\ Z.land (PRR s) PRR_ALL = 1
  /\ Z.land (PRR (Sleep_epilogue (Sleep_body 1 (Sleep_prologue s)))) PRR_ALL = 0.
Proof.
  cbv zeta.
  assert (R : Sleep [1%nat] 8 (set_PRR 1 (Watchdog 0 boot))
              = Some (Sleep_epilogue (Sleep_body 1 (Sleep_prologue (set_PRR 1 (Watchdog 0 boot))))))
    by (vm_compute; reflexivity).
  split; [exact R | ]. split; [reflexivity | ].
  apply (Sleep_power_state _ _ _ _ R).
Defined.

(** ** [Configure] called twice *)

Lemma clear_WDRF_idem (m : Z) :
  to_u8 (Z.land (to_u8 (Z.land m (Z.lnot (_BV WDRF)))) (Z.lnot (_BV WDRF)))
  = to_u8 (Z.land m (Z.lnot (_BV WDRF))).
Proof.
  unfold to_u8. rewrite <- !Z.land_ones by discriminate.
  apply Z.bits_inj'. intros n Hn. rewrite !Z.land_spec.
  destruct (Z.testbit m n), (Z.testbit (Z.lnot (_BV WDRF)) n),
    (Z.testbit (Z.ones 8) n); reflexivity.
Qed.

(** X18.  The last call of [Configure] decides: after two calls every
    register and global is what the second call alone would have left. *)
Theorem Configure_last_call_wins (b b' : bool) (s : state) :
  WDTCSR (Configure b (Configure b' s)) = WDTCSR (Configure b s)
  /\ MCUSR (Configure b (Configure b' s)) = MCUSR (Configure b s)
  /\ mode (Configure b (Configure b' s)) = mode (Configure b s)
  /\ SREG_I (Configure b (Configure b' s)) = SREG_I (Configure b s)
  /\ wdt_timer (Configure b (Configure b' s)) = wdt_timer (Configure b s)
  /\ _wdto (Configure b (Configure b' s)) = _wdto (Configure b s)
  /\ _sleepOrWaitCount (Configure b (Configure b' s)) = _sleepOrWaitCount (Configure b s)
  /\ _waitTotal (Configure b (Configure b' s)) = _waitTotal (Configure b s).
Proof.
  assert (W : WDTCSR (Configure b (Configure b' s)) = WDTCSR (Configure b s))
    by (rewrite !WDTCSR_Configure; reflexivity).
  split; [exact W | ]. split.
  - change (to_u8 (Z.land (to_u8 (Z.land (MCUSR s) (Z.lnot (_BV WDRF)))) (Z.lnot (_BV WDRF)))
            = to_u8 (Z.land (MCUSR s) (Z.lnot (_BV WDRF)))).
    apply clear_WDRF_idem.
  - split; [rewrite !mode_Configure; reflexivity | ].
    repeat split.
Qed.
